(** * Books dashboard (app.py): a shallow embedding and its properties

    The program is a Streamlit script over a pandas DataFrame kept in the
    session state.  The embedding follows the source function by function:
    [detect_column], [scrape_books_data], [clean_data], [connect_database]
    and the three parts of [main] (load actions, views, session state).

    Library calls (Python [str] methods, [float()], pandas column
    operations, [re]) are modelled next to the code that calls them; each
    model states the part of the library behaviour it covers. *)

From Stdlib Require Import ZArith List Bool Lia String Ascii.
From Stdlib Require Import Floats.SpecFloat.
Import ListNotations.
Open Scope Z_scope.

Set Implicit Arguments.

(** ** Python strings

    A Python [str] is a sequence of Unicode code points; it is modelled as
    the list of their numbers.  Literals of the source that are pure ASCII
    are written with [lit]; the two-character artifact of [clean_data] is
    written out as code points. *)

Module PyStr.

Definition str := list Z.

Definition lit (s : string) : str :=
  map (fun a => Z.of_N (N_of_ascii a)) (list_ascii_of_string s).

(** [a == b] *)
Fixpoint eqb (a b : str) : bool :=
  match a, b with
  | [], [] => true
  | x :: a', y :: b' => (x =? y) && eqb a' b'
  | _, _ => false
  end.

(** [s.startswith(p)] *)
Fixpoint startswith (p s : str) : bool :=
  match p, s with
  | [], _ => true
  | _ :: _, [] => false
  | x :: p', y :: s' => (x =? y) && startswith p' s'
  end.

(** [p in s]: [p] occurs in [s] as a contiguous run. *)
Fixpoint contains (p s : str) : bool :=
  startswith p s ||
  match s with
  | [] => false
  | _ :: s' => contains p s'
  end.

(** [c.lower()] on one code point.  Exact for code points below U+0100
    (A-Z, and the Latin-1 capitals U+00C0-U+00DE without the
    multiplication sign U+00D7); code points from U+0100 on are outside
    this model of the case tables and are left as they are. *)
Definition lower_cp (c : Z) : Z :=
  if (65 <=? c) && (c <=? 90) then c + 32
  else if (192 <=? c) && (c <=? 222) && negb (c =? 215) then c + 32
  else c.

(** [s.lower()] *)
Definition lower (s : str) : str := map lower_cp s.

(** The code points Python's [str.strip()] removes (those with
    [str.isspace()] true). *)
Definition isspace (c : Z) : bool :=
  ((9 <=? c) && (c <=? 13)) || ((28 <=? c) && (c <=? 32))
  || (c =? 133) || (c =? 160) || (c =? 5760)
  || ((8192 <=? c) && (c <=? 8202))
  || (c =? 8232) || (c =? 8233) || (c =? 8239) || (c =? 8287)
  || (c =? 12288).

Fixpoint lstrip (s : str) : str :=
  match s with
  | c :: s' => if isspace c then lstrip s' else s
  | [] => []
  end.

Definition rstrip (s : str) : str := rev (lstrip (rev s)).

(** [s.strip()] *)
Definition strip (s : str) : str := rstrip (lstrip s).

(** [s.replace(old, new)] for a non-empty [old]: occurrences are replaced
    from the left and do not overlap.  [fuel] bounds the scan by the
    length of the text. *)
Fixpoint replace_from (fuel : nat) (old new s : str) : str :=
  match fuel with
  | O => s
  | S fuel' =>
      match s with
      | [] => []
      | c :: s' =>
          if startswith old s
          then new ++ replace_from fuel' old new (skipn (List.length old) s)
          else c :: replace_from fuel' old new s'
      end
  end.

Definition replace (old new s : str) : str :=
  match old with
  | [] => s
  | _ :: _ => replace_from (List.length s) old new s
  end.

(** Decimal digits of a non-negative integer, most significant first. *)
Fixpoint digits_from (fuel : nat) (n : Z) (acc : str) : str :=
  match fuel with
  | O => acc
  | S fuel' =>
      let acc' := (48 + n mod 10) :: acc in
      if n <? 10 then acc' else digits_from fuel' (n / 10) acc'
  end.

(** [str(n)] for a Python [int]. *)
Definition of_Z (n : Z) : str :=
  if n <? 0
  then 45 :: digits_from (S (Z.to_nat (Z.log2 (- n)))) (- n) []
  else digits_from (S (Z.to_nat (Z.log2 n))) n [].

End PyStr.

Abbreviation str := PyStr.str.
Abbreviation lit := PyStr.lit.


(** ** Floating-point numbers

    A Python [float] (and a cell of a pandas [float64] column) is an IEEE
    754 binary64 value, modelled by the standard library's [spec_float]
    with 53 bits of precision.  Conversions round to nearest, ties to
    even, as CPython's do. *)

Module Float64.

Definition prec : Z := 53.
Definition emax : Z := 1024.

Definition float := spec_float.

Definition nan : float := S754_nan.

Definition is_nan (f : float) : bool :=
  match f with S754_nan => true | _ => false end.

(** Structural equality; binary64 values built by the conversions below
    are in canonical form, so it identifies equal bit patterns (all NaNs
    are one value). *)
Definition same (f g : float) : bool :=
  match f, g with
  | S754_zero s, S754_zero t => Bool.eqb s t
  | S754_infinity s, S754_infinity t => Bool.eqb s t
  | S754_nan, S754_nan => true
  | S754_finite s m e, S754_finite t n d =>
      Bool.eqb s t && (m =? n)%positive && (e =? d)
  | _, _ => false
  end.

(** [float(z)] for an integer [z]. *)
Definition of_Z (z : Z) : float := binary_normalize prec emax z 0 false.

(** The binary64 nearest to [p / q], for [0 < p] and [0 < q]: the
    quotient is taken with at least 55 significant bits and a sticky
    bit, then rounded once. *)
Definition of_ratio (neg : bool) (p q : Z) : float :=
  let s := Z.max 0 (56 + Z.log2 q - Z.log2 p) in
  let n := p * 2 ^ s in
  let sticky := if n mod q =? 0 then 0 else 1 in
  let m := 2 * (n / q) + sticky in
  binary_normalize prec emax (if neg then - m else m) (- (s + 1)) neg.

(** The binary64 nearest to [(-1)^neg * d * 10^e], for [0 <= d]. *)
Definition of_decimal (neg : bool) (d e : Z) : float :=
  if d =? 0 then S754_zero neg
  else if 0 <=? e
       then binary_normalize prec emax
              (if neg then - (d * 10 ^ e) else d * 10 ^ e) 0 neg
       else of_ratio neg d (10 ^ (- e)).

(** [int(f)]: truncation toward zero; [None] for NaN and the
    infinities, on which Python raises. *)
Definition trunc (f : float) : option Z :=
  match f with
  | S754_zero _ => Some 0
  | S754_finite s m e =>
      let a := if 0 <=? e then Z.pos m * 2 ^ e else Z.pos m / 2 ^ (- e) in
      Some (if s then - a else a)
  | _ => None
  end.

(** [f <= t] for an integer [t], on the exact values.  NumPy converts [t]
    to binary64 first, which is exact for [|t| <= 2^53], the integers a
    slider can return. *)
Definition leb_Z (f : float) (t : Z) : bool :=
  match f with
  | S754_nan => false
  | S754_infinity s => s
  | S754_zero _ => 0 <=? t
  | S754_finite s m e =>
      let v := if s then Z.neg m else Z.pos m in
      if 0 <=? e then v * 2 ^ e <=? t else v <=? t * 2 ^ (- e)
  end.

(** [f < g] on floats. *)
Definition ltb (f g : float) : bool := SFltb f g.

(** *** [repr(f)]: the shortest decimal string that reads back as [f] *)

(** [num / den < 10^k] *)
Definition lt_pow10 (num den k : Z) : bool :=
  if 0 <=? k then num <? den * 10 ^ k else num * 10 ^ (- k) <? den.

(** The position of the decimal point: the least [k] from [k0] on with
    [num / den < 10^k]. *)
Fixpoint find_decpt (fuel : nat) (num den k0 : Z) : Z :=
  match fuel with
  | O => k0
  | S fuel' =>
      if lt_pow10 num den k0 then k0 else find_decpt fuel' num den (k0 + 1)
  end.

Definition decpt (num den : Z) : Z :=
  find_decpt 8 num den ((Z.log2 num - Z.log2 den) * 30103 / 100000 - 3).

(** The [n]-digit integer [c] with [c * 10^(k-n)] nearest to [num / den]
    among those that read back as [x], if there is one. *)
Definition candidate (x : float) (num den k n : Z) : option Z :=
  let j := n - k in
  let a := if 0 <=? j then num * 10 ^ j else num in
  let b := if 0 <=? j then den else den * 10 ^ (- j) in
  let s := a / b in
  let r := a mod b in
  let ok c := same (of_decimal false c (k - n)) x in
  match ok s, ok (s + 1) with
  | true, true =>
      Some (if 2 * r <? b then s
            else if b <? 2 * r then s + 1
            else if Z.even s then s else s + 1)
  | true, false => Some s
  | false, true => Some (s + 1)
  | false, false => None
  end.

Fixpoint shortest (fuel : nat) (x : float) (num den k n : Z) : Z * Z :=
  match fuel with
  | O => (0, n)
  | S fuel' =>
      match candidate x num den k n with
      | Some c => (c, n)
      | None => shortest fuel' x num den k (n + 1)
      end
  end.

Fixpoint drop_zeros (r : str) : str :=
  match r with
  | 48 :: r' => drop_zeros r'
  | _ => r
  end.

Definition zeros (n : Z) : str := repeat 48 (Z.to_nat n).

Definition exponent_digits (e : Z) : str :=
  let a := Z.abs e in
  (if e <? 0 then 45 else 43)
    :: (if a <? 10 then 48 :: PyStr.of_Z a else PyStr.of_Z a).

(** Layout of the digits [ds] with the decimal point after [dp] of them:
    positional for [-4 < dp <= 16], with an exponent otherwise. *)
Definition layout (ds : str) (dp : Z) : str :=
  let n := Z.of_nat (List.length ds) in
  if (-4 <? dp) && (dp <=? 16) then
    if dp <=? 0 then lit "0." ++ zeros (- dp) ++ ds
    else if n <=? dp then ds ++ zeros (dp - n) ++ lit ".0"
    else firstn (Z.to_nat dp) ds ++ 46 :: skipn (Z.to_nat dp) ds
  else
    match ds with
    | [] => []
    | d :: [] => d :: 101 :: exponent_digits (dp - 1)
    | d :: rest => d :: 46 :: rest ++ 101 :: exponent_digits (dp - 1)
    end.

Definition repr_finite (m : positive) (e : Z) : str :=
  let num := if 0 <=? e then Z.pos m * 2 ^ e else Z.pos m in
  let den := if 0 <=? e then 1 else 2 ^ (- e) in
  let k := decpt num den in
  let '(c, n) := shortest 17 (S754_finite false m e) num den k 1 in
  if c =? 10 ^ n then layout [49] (k + 1)
  else layout (rev (drop_zeros (rev (PyStr.of_Z c)))) k.

(** [repr(f)], which is also [str(f)]. *)
Definition repr (f : float) : str :=
  match f with
  | S754_nan => lit "nan"
  | S754_infinity s => if s then lit "-inf" else lit "inf"
  | S754_zero s => if s then lit "-0.0" else lit "0.0"
  | S754_finite s m e =>
      if s then 45 :: repr_finite m e else repr_finite m e
  end.

End Float64.

Abbreviation float := Float64.float.

(** ** Reading numbers from text *)

Module Parse.

Definition isdigit (c : Z) : bool := (48 <=? c) && (c <=? 57).

(** A run of digits, with single underscores between digits when
    [us] is set: its value, its number of digits and the rest. *)
Fixpoint digitpart (us : bool) (s : str) (v n : Z) : Z * Z * str :=
  match s with
  | c :: s' =>
      if isdigit c then digitpart us s' (10 * v + (c - 48)) (n + 1)
      else if us && (c =? 95) && (0 <? n) then
        match s' with
        | d :: s'' =>
            if isdigit d
            then digitpart us s'' (10 * v + (d - 48)) (n + 1)
            else (v, n, s)
        | [] => (v, n, s)
        end
      else (v, n, s)
  | [] => (v, n, [])
  end.

(** An optional sign: whether it is a minus, and the rest. *)
Definition sign (s : str) : bool * str :=
  match s with
  | 45 :: s' => (true, s')
  | 43 :: s' => (false, s')
  | _ => (false, s)
  end.

(** An optional exponent part [e[+-]digits]; [None] when an [e] is not
    followed by digits. *)
Definition exponent (us : bool) (s : str) : option (Z * bool * str) :=
  match s with
  | c :: s' =>
      if (c =? 101) || (c =? 69) then
        let '(neg, s1) := sign s' in
        let '(v, n, rest) := digitpart us s1 0 0 in
        if 0 <? n then Some (if neg then - v else v, true, rest) else None
      else Some (0, false, s)
  | [] => Some (0, false, [])
  end.

(** A number read from text: an integer literal or a float. *)
Inductive number :=
| NInt (z : Z)
| NFloat (f : float).

(** [inf], [infinity] and [nan] in any letter case. *)
Definition special (neg : bool) (s : str) : option number :=
  let l := PyStr.lower s in
  if PyStr.eqb l (lit "inf") || PyStr.eqb l (lit "infinity")
  then Some (NFloat (S754_infinity neg))
  else if PyStr.eqb l (lit "nan") then Some (NFloat S754_nan)
  else None.

(** [[sign] (digits [. [digits]] | . digits) [exponent]], or a special
    name, up to the end of the text.  A literal with neither point nor
    exponent is an integer literal. *)
Definition scan (us : bool) (s : str) : option number :=
  let '(neg, s0) := sign s in
  let '(vi, ni, s1) := digitpart us s0 0 0 in
  let '(vf, nf, point, s2) :=
    match s1 with
    | 46 :: s1' => let '(v, n, r) := digitpart us s1' 0 0 in (v, n, true, r)
    | _ => (0, 0, false, s1)
    end in
  if 0 <? ni + nf then
    match exponent us s2 with
    | Some (e, has_exp, []) =>
        if point || has_exp
        then Some (NFloat (Float64.of_decimal neg (vi * 10 ^ nf + vf) (e - nf)))
        else Some (NInt (if neg then - vi else vi))
    | _ => None
    end
  else if point then None
  else special neg s0.

Definition isspace_ascii (c : Z) : bool :=
  (c =? 32) || ((9 <=? c) && (c <=? 13)).

Fixpoint lstrip_ascii (s : str) : str :=
  match s with
  | c :: s' => if isspace_ascii c then lstrip_ascii s' else s
  | [] => []
  end.

Definition strip_ascii (s : str) : str :=
  rev (lstrip_ascii (rev (lstrip_ascii s))).

(** Python's [float(s)] for a [str]: [None] where it raises
    [ValueError].  CPython first turns each white-space code point from
    U+0080 on into a blank, then strips ASCII white space and reads the
    literal.  Decimal digits other than 0-9 are outside the model. *)
Definition py_float (s : str) : option float :=
  let t :=
    strip_ascii
      (map (fun c => if (128 <=? c) && PyStr.isspace c then 32 else c) s) in
  match scan true t with
  | Some (NFloat f) => Some f
  | Some (NInt z) =>
      Some (if (z =? 0) && fst (sign t) then S754_zero true
            else Float64.of_Z z)
  | None => None
  end.

(** The text-to-number conversion of [pandas.to_numeric]: a decimal
    literal between ASCII white space, or a special name.  An integer
    literal outside the signed 64-bit range is read as a float (pandas
    keeps those below 2^64 as unsigned integers, which the cells of the
    model do not have).  The value of a float literal is taken as
    correctly rounded. *)
Definition pd_number (s : str) : option number :=
  match scan false (strip_ascii s) with
  | Some (NInt z) =>
      if (- 2 ^ 63 <=? z) && (z <? 2 ^ 63) then Some (NInt z)
      else Some (NFloat (Float64.of_Z z))
  | r => r
  end.

End Parse.

(** ** Regular expressions

    [Series.str.contains(pat)] compiles the pattern with [re.compile] and
    searches each text with it, the pattern being a regular expression
    ([regex=True] is the default); [case=False] compiles it with
    [re.IGNORECASE].  The model interprets the patterns made of ordinary
    characters and the dot; a pattern that uses another operator is
    outside the fragment and [compile] gives [None] for it.  With
    [re.IGNORECASE] the ordinary characters of the fragment are those
    below U+0100. *)

Module Re.

Inductive atom :=
| Lit (c : Z)              (* this code point *)
| LitIgnoreCase (c : Z)    (* a code point that [fold] sends to [c] *)
| AnyChar.

(** The characters with a meaning of their own in a pattern:
    [. ^ $ * + ? { } [ ] \ | ( )]. *)
Definition special (c : Z) : bool :=
  existsb (Z.eqb c) [46; 94; 36; 42; 43; 63; 123; 125; 91; 93; 92; 124; 40; 41].

(** The comparison of [re.IGNORECASE] between a pattern character below
    U+0100 and a code point of the text: they match when [fold] gives
    them the same number.  Below U+0100 that is the lowered character.
    From U+0100 on, nine code points match a character below U+0100: the
    dotted capital I (U+0130) and the dotless i (U+0131) match i, the long
    s (U+017F) matches s, the Kelvin sign (U+212A) matches k, the Greek mu
    (U+039C, U+03BC) matches the micro sign, the Angstrom sign (U+212B)
    matches a with ring, the capital sharp s (U+1E9E) matches the sharp s
    and the capital Y with diaeresis (U+0178) the small one. *)
Definition fold (c : Z) : Z :=
  if c <? 256 then PyStr.lower_cp c
  else if (c =? 304) || (c =? 305) then 105
  else if c =? 383 then 115
  else if c =? 8490 then 107
  else if (c =? 924) || (c =? 956) then 181
  else if c =? 8491 then 229
  else if c =? 7838 then 223
  else if c =? 376 then 255
  else c.

(** [re.compile(pat)], and [re.compile(pat, re.IGNORECASE)] when
    [ignorecase] holds. *)
Fixpoint compile (ignorecase : bool) (pat : str) : option (list atom) :=
  match pat with
  | [] => Some []
  | c :: pat' =>
      match compile ignorecase pat' with
      | Some r =>
          if c =? 46 then Some (AnyChar :: r)
          else if special c then None
          else if negb ignorecase then Some (Lit c :: r)
          else if c <? 256 then Some (LitIgnoreCase (fold c) :: r)
          else None
      | None => None
      end
  end.

(** One atom against one code point.  The dot matches all but the line
    feed. *)
Definition atom_match (a : atom) (c : Z) : bool :=
  match a with
  | Lit x => x =? c
  | LitIgnoreCase x => x =? fold c
  | AnyChar => negb (c =? 10)
  end.

Fixpoint match_here (r : list atom) (s : str) : bool :=
  match r, s with
  | [], _ => true
  | _ :: _, [] => false
  | a :: r', c :: s' => atom_match a c && match_here r' s'
  end.

(** [pattern.search(s)]: a match at some position of the text. *)
Fixpoint search (r : list atom) (s : str) : bool :=
  match_here r s ||
  match s with
  | [] => false
  | _ :: s' => search r s'
  end.

End Re.

(** ** Tables

    A [DataFrame] is a header and rows of cells.  The column labels are
    text, as the three sources of the program give them.  A cell holds
    text, an integer, a float (a missing value of a CSV file is the float
    NaN) or Python's [None] (a NULL of the database). *)

Inductive cell :=
| VStr (s : str)
| VInt (z : Z)
| VFloat (f : float)
| VNone.

Record DataFrame := {
  columns : list str;
  rows : list (list cell)
}.

(** [df.empty]: no column or no row. *)
Definition empty (df : DataFrame) : bool :=
  match columns df, rows df with
  | [], _ | _, [] => true
  | _, _ => false
  end.

(** [name in df.columns] *)
Definition has_column (df : DataFrame) (name : str) : bool :=
  existsb (PyStr.eqb name) (columns df).

Fixpoint index_of (name : str) (cols : list str) : option nat :=
  match cols with
  | [] => None
  | c :: cols' =>
      if PyStr.eqb name c then Some O
      else option_map S (index_of name cols')
  end.

(** [df[name]]: the cells of a column, [None] for [KeyError]. *)
Definition get_column (df : DataFrame) (name : str) : option (list cell) :=
  match index_of name (columns df) with
  | Some i => Some (map (fun r => nth i r VNone) (rows df))
  | None => None
  end.

Fixpoint set_nth (i : nat) (v : cell) (r : list cell) : list cell :=
  match i, r with
  | O, _ :: r' => v :: r'
  | S i', c :: r' => c :: set_nth i' v r'
  | _, [] => []
  end.

(** [df[name] = values]: the column is overwritten in place, or added as
    the last one when the table has none of that name.  Wherever the
    program assigns a column, the values are as many as the rows. *)
Definition set_column (df : DataFrame) (name : str) (values : list cell)
  : DataFrame :=
  match index_of name (columns df) with
  | Some i =>
      {| columns := columns df;
         rows := map (fun vr => set_nth i (fst vr) (snd vr))
                     (combine values (rows df)) |}
  | None =>
      {| columns := columns df ++ [name];
         rows := map (fun vr => snd vr ++ [fst vr])
                     (combine values (rows df)) |}
  end.

(** [df[mask]]: the rows at which the mask holds, in their order. *)
Fixpoint select (mask : list bool) (rs : list (list cell)) : list (list cell) :=
  match mask, rs with
  | b :: mask', r :: rs' => if b then r :: select mask' rs' else select mask' rs'
  | _, _ => []
  end.

(** One scraped item, the dictionary appended by [scrape_books_data]. *)
Record BookRecord := {
  Book_Name : str;
  price : str;
  availability : str
}.

(** [pd.DataFrame(data)] for a list of such dictionaries; the empty list
    gives a table without columns. *)
Definition DataFrame_of (data : list BookRecord) : DataFrame :=
  match data with
  | [] => {| columns := []; rows := [] |}
  | _ :: _ =>
      {| columns := [lit "Book_Name"; lit "price"; lit "availability"];
         rows := map (fun b => [VStr (Book_Name b); VStr (price b);
                                VStr (availability b)]) data |}
  end.

(** What the program reports to the user with [st.error],
    [st.sidebar.error] and [st.sidebar.success]; the text of the caught
    exception is left out. *)
Inductive message :=
| ErrorLoadingCSV
| ErrorScrapingData
| ErrorLoadingDatabase
| ErrorScrapingPage (page : Z)
| ErrorCleaningData
| DatabaseConnectionFailed
| LoadedFromCSV
| ScrapedAndSaved
| LoadedFromDatabase.

(** ** [detect_column] *)

(** First loop: the first candidate that is a column name. *)
Fixpoint detect_exact (df : DataFrame) (possible_names : list str)
  : option str :=
  match possible_names with
  | [] => None
  | name :: rest =>
      if has_column df name then Some name else detect_exact df rest
  end.

(** Second loop: the first column whose lowered name contains a lowered
    candidate. *)
Fixpoint detect_partial (cols : list str) (possible_names : list str)
  : option str :=
  match cols with
  | [] => None
  | col :: rest =>
      if existsb (fun name =>
                    PyStr.contains (PyStr.lower name) (PyStr.lower col))
                 possible_names
      then Some col
      else detect_partial rest possible_names
  end.

Definition detect_column (df : DataFrame) (possible_names : list str)
  : option str :=
  match detect_exact df possible_names with
  | Some name => Some name
  | None => detect_partial (columns df) possible_names
  end.

(** ** [scrape_books_data]

    The web is what the five requests return.  A request raises, or gives
    a document; the document has the listing [<ol class="row">] or not;
    the listing holds the [article.product_pod] entries.  Of an entry the
    code reads three things, and each read raises when the element or the
    attribute is not there ([None] below). *)

Record article := {
  title_attr : option str;        (* book.h3.a['title'] *)
  price_text : option str;        (* book.find('p', class_='price_color').text *)
  availability_text : option str  (* book.find('p', class_='instock availability').text *)
}.

Inductive response :=
| RequestFailed
| Document (books_list : option (list article)).

(** The inner loop over the entries of one page: the records appended to
    [data], and whether an entry raised (the loop stops there). *)
Fixpoint scrape_entries (books : list article) (data : list BookRecord)
  : list BookRecord * bool :=
  match books with
  | [] => (data, false)
  | book :: rest =>
      match title_attr book, price_text book, availability_text book with
      | Some title, Some price, Some availability =>
          scrape_entries rest
            (data ++ [{| Book_Name := title;
                         price := price;
                         availability := PyStr.strip availability |}])
      | _, _, _ => (data, true)
      end
  end.

(** The body of the loop over pages, with its [try]/[except]. *)
Definition scrape_page (web : Z -> response)
  (state : list BookRecord * list message) (page : Z)
  : list BookRecord * list message :=
  let '(data, errors) := state in
  match web page with
  | RequestFailed => (data, errors ++ [ErrorScrapingPage page])
  | Document None => (data, errors)
  | Document (Some books) =>
      let '(data', raised) := scrape_entries books data in
      (data', if raised then errors ++ [ErrorScrapingPage page] else errors)
  end.

(** [range(1, 6)] *)
Definition pages : list Z := [1; 2; 3; 4; 5].

Definition scrape_books_data (web : Z -> response)
  : list BookRecord * list message :=
  fold_left (scrape_page web) pages ([], []).

(** ** [clean_data] *)

(** [f] on each element; [None] as soon as one raises. *)
Fixpoint try_map {A B : Type} (f : A -> option B) (l : list A)
  : option (list B) :=
  match l with
  | [] => Some []
  | x :: l' =>
      match f x with
      | Some y => option_map (cons y) (try_map f l')
      | None => None
      end
  end.

(** The artifact removed from the prices: U+00C2 U+00A3, the two bytes of
    the UTF-8 pound sign read as Latin-1. *)
Definition artifact : str := [194; 163].

(** [.str.replace(artifact, '')] on one cell; a cell that is not text
    becomes NaN, as in a column that holds text too.  (On a column
    without any text pandas raises at [.str]; the tables [main] cleans
    are scraped, their prices are text.) *)
Definition str_replace_cell (c : cell) : cell :=
  match c with
  | VStr s => VStr (PyStr.replace artifact [] s)
  | _ => VFloat Float64.nan
  end.

(** [.astype(float)] on one cell of an object column. *)
Definition astype_float_cell (c : cell) : option float :=
  match c with
  | VStr s => Parse.py_float s
  | VInt z => Some (Float64.of_Z z)
  | VFloat f => Some f
  | VNone => Some Float64.nan
  end.

(** [.astype(int)] on one cell of a float column: truncation; pandas
    raises on NaN and the infinities.  Outside the 64-bit range the cast
    is NumPy's, taken here with the value it has on x86-64. *)
Definition astype_int_cell (f : float) : option Z :=
  match Float64.trunc f with
  | Some z => Some (if (- 2 ^ 63 <=? z) && (z <? 2 ^ 63) then z else - 2 ^ 63)
  | None => None
  end.

(** The two assignments under one [try]: when the first raises, the table
    is as it was; when the second raises, the prices stay floats. *)
Definition clean_data (df : DataFrame) : DataFrame * list message :=
  match get_column df (lit "price") with
  | None => (df, [ErrorCleaningData])
  | Some col =>
      match try_map astype_float_cell (map str_replace_cell col) with
      | None => (df, [ErrorCleaningData])
      | Some floats =>
          let df1 := set_column df (lit "price") (map VFloat floats) in
          match try_map astype_int_cell floats with
          | None => (df1, [ErrorCleaningData])
          | Some ints => (set_column df1 (lit "price") (map VInt ints), [])
          end
      end
  end.

(** ** [connect_database] and the load actions of [main] *)

(** What is outside the program during one run of the script. *)
Record world := {
  csv_file : option DataFrame;   (* pd.read_csv("books_data.csv"); None: it raises *)
  web : Z -> response;           (* requests.get of each page *)
  csv_writable : bool;           (* whether df.to_csv succeeds *)
  db_reachable : bool;           (* whether pyodbc.connect succeeds *)
  db_table : option DataFrame;   (* pd.read_sql(...); None: it raises *)
  db_closes : bool               (* whether conn.close() returns *)
}.

Inductive connection := Connection.

Definition connect_database (w : world) : option connection * list message :=
  if db_reachable w then (Some Connection, [])
  else (None, [DatabaseConnectionFailed]).

(** [st.session_state.df]: [None] until a table is loaded. *)
Definition session := option DataFrame.

(** "Load from CSV" *)
Definition load_from_csv (w : world) (s : session) : session * list message :=
  match csv_file w with
  | Some df => (Some df, [LoadedFromCSV])
  | None => (s, [ErrorLoadingCSV])
  end.

(** "Scrape New Data": the session table is assigned before cleaning and
    again after it; the third component is the table written to the
    file. *)
Definition scrape_new_data (w : world) (s : session)
  : session * list message * option DataFrame :=
  let '(data, errors) := scrape_books_data (web w) in
  let '(df, errors') := clean_data (DataFrame_of data) in
  if csv_writable w
  then (Some df, errors ++ errors' ++ [ScrapedAndSaved], Some df)
  else (Some df, errors ++ errors' ++ [ErrorScrapingData], None).

(** "Load from Database": the session table is assigned as soon as the
    query returns; the connection is closed after that, under the same
    [try]. *)
Definition load_from_database (w : world) (s : session)
  : session * list message :=
  let '(conn, errors) := connect_database w in
  match conn with
  | Some _ =>
      match db_table w with
      | Some df =>
          if db_closes w
          then (Some df, errors ++ [LoadedFromDatabase])
          else (Some df, errors ++ [ErrorLoadingDatabase])
      | None => (s, errors ++ [ErrorLoadingDatabase])
      end
  | None => (s, errors)
  end.

(** ** The views of [main]

    [df = st.session_state.df] names the session table itself, not a copy:
    an assignment [df[col] = ...] in a view changes the session table.
    Each view therefore takes the table and returns the table as it is
    afterwards, next to what it displays. *)

(** [pd.to_numeric(column, errors='coerce')] on one cell. *)
Definition to_numeric_cell (c : cell) : cell :=
  match c with
  | VStr s =>
      match Parse.pd_number s with
      | Some (Parse.NInt z) => VInt z
      | Some (Parse.NFloat f) => VFloat f
      | None => VFloat Float64.nan
      end
  | VInt z => VInt z
  | VFloat f => VFloat f
  | VNone => VFloat Float64.nan
  end.

Definition is_int (c : cell) : bool :=
  match c with VInt _ => true | _ => false end.

Definition as_float (c : cell) : cell :=
  match c with VInt z => VFloat (Float64.of_Z z) | _ => c end.

(** The column has one dtype: [int64] when every cell is an integer,
    [float64] otherwise. *)
Definition to_numeric (col : list cell) : list cell :=
  let col' := map to_numeric_cell col in
  if forallb is_int col' then col' else map as_float col'.

(** [isna] *)
Definition isna (c : cell) : bool :=
  match c with
  | VFloat f => Float64.is_nan f
  | VNone => true
  | _ => false
  end.

(** [df.dropna(subset=[name])], a new table. *)
Definition dropna (df : DataFrame) (name : str) : DataFrame :=
  match get_column df name with
  | Some col =>
      {| columns := columns df;
         rows := select (map (fun c => negb (isna c)) col) (rows df) |}
  | None => df
  end.

Definition cell_ltb (a b : cell) : bool :=
  match a, b with
  | VInt x, VInt y => x <? y
  | VFloat f, VFloat g => Float64.ltb f g
  | _, _ => false
  end.

(** [column.min()] and [column.max()]; [None] stands for the NaN of an
    empty column. *)
Definition col_min (col : list cell) : option cell :=
  match col with
  | [] => None
  | c :: rest => Some (fold_left (fun m x => if cell_ltb x m then x else m) rest c)
  end.

Definition col_max (col : list cell) : option cell :=
  match col with
  | [] => None
  | c :: rest => Some (fold_left (fun m x => if cell_ltb m x then x else m) rest c)
  end.

(** [int(...)] of such a minimum or maximum; [None] where it raises. *)
Definition int_of (c : option cell) : option Z :=
  match c with
  | Some (VInt z) => Some z
  | Some (VFloat f) => Float64.trunc f
  | _ => None
  end.

(** The arguments [min_value], [max_value] and [value] with which the
    slider is built from [df_clean]. *)
Definition slider_arguments (df_clean : DataFrame) (price_col : str)
  : option (Z * Z * Z) :=
  match get_column df_clean price_col with
  | Some col =>
      match int_of (col_min col), int_of (col_max col) with
      | Some min_price, Some max_price =>
          Some (min_price, max_price, Z.min max_price 50)
      | _, _ => None
      end
  | None => None
  end.

(** [column <= selected_price] on one cell. *)
Definition cell_leb_Z (c : cell) (t : Z) : bool :=
  match c with
  | VInt z => z <=? t
  | VFloat f => Float64.leb_Z f t
  | _ => false
  end.

(** [df_clean[df_clean[price_col] <= selected_price]] *)
Definition price_ceiling (df_clean : DataFrame) (price_col : str) (t : Z)
  : DataFrame :=
  match get_column df_clean price_col with
  | Some col =>
      {| columns := columns df_clean;
         rows := select (map (fun c => cell_leb_Z c t) col) (rows df_clean) |}
  | None => df_clean
  end.

(** The widgets of one run.  The slider is given its three arguments and
    answers with the chosen value, or raises ([None]). *)
Record widgets := {
  load_csv_pressed : bool;
  scrape_pressed : bool;
  load_database_pressed : bool;
  slider : Z -> Z -> Z -> option Z;
  search_term : str
}.

Inductive price_display :=
| PriceFiltered (selected_price : Z) (filtered : DataFrame)
| PriceError
| PriceColumnNotFound.

(** "Filter by Price": the table afterwards, what is displayed, and
    [filtered_df]. *)
Definition filter_by_price (ui : widgets) (df : DataFrame)
  (price_col : option str) : DataFrame * price_display * DataFrame :=
  match price_col with
  | Some ((_ :: _) as col) =>
      match get_column df col with
      | Some cells =>
          let df := set_column df col (to_numeric cells) in
          let df_clean := dropna df col in
          match slider_arguments df_clean col with
          | Some (min_price, max_price, default_price) =>
              match slider ui min_price max_price default_price with
              | Some selected_price =>
                  let filtered_df := price_ceiling df_clean col selected_price in
                  (df, PriceFiltered selected_price filtered_df, filtered_df)
              | None => (df, PriceError, df)
              end
          | None => (df, PriceError, df)
          end
      | None => (df, PriceError, df)
      end
  | _ => (df, PriceColumnNotFound, df)
  end.

(** [.astype(str)] on one cell: [str(x)]; a missing value reads "nan" or
    "None" (pandas before 3.0 makes text of missing values too). *)
Definition astype_str (c : cell) : str :=
  match c with
  | VStr s => s
  | VInt z => PyStr.of_Z z
  | VFloat f => Float64.repr f
  | VNone => lit "None"
  end.

Inductive stock_display :=
| InStock (in_stock_df : DataFrame)
| StockError
| AvailabilityColumnNotFound.

(** "Books In Stock" *)
Definition books_in_stock (df : DataFrame) (availability_col : option str)
  : stock_display :=
  match availability_col with
  | Some ((_ :: _) as col) =>
      match get_column df col, Re.compile false (lit "in stock") with
      | Some cells, Some pat =>
          let in_stock_mask :=
            map (fun c => Re.search pat (PyStr.lower (astype_str c)))
                cells in
          InStock {| columns := columns df;
                     rows := select in_stock_mask (rows df) |}
      | _, _ => StockError
      end
  | _ => AvailabilityColumnNotFound
  end.

Inductive search_display :=
| SearchResults (search_results : DataFrame)
| SearchError
| NothingShown                (* no title column, or an empty term *)
| PatternOutsideFragment.     (* the term is one that [Re] leaves out *)

(** "Search Books" *)
Definition search_books (ui : widgets) (df : DataFrame)
  (title_col : option str) : search_display :=
  match title_col with
  | Some ((_ :: _) as col) =>
      match search_term ui with
      | [] => NothingShown
      | _ :: _ =>
          match get_column df col, Re.compile true (search_term ui) with
          | Some cells, Some pat =>
              SearchResults
                {| columns := columns df;
                   rows := select (map (fun c => Re.search pat (astype_str c))
                                       cells)
                                  (rows df) |}
          | None, _ => SearchError
          | _, None => PatternOutsideFragment
          end
      end
  | _ => NothingShown
  end.

Record page := {
  price_section : price_display;
  stock_section : stock_display;
  search_section : search_display;
  download : DataFrame          (* filtered_df, offered as CSV *)
}.

(** The part of [main] after the table is fetched from the session: the
    session table afterwards and the page.  The charts read the price
    column and draw; they are left out. *)
Definition render (ui : widgets) (df : DataFrame) : DataFrame * page :=
  let price_col :=
    detect_column df [lit "price"; lit "Price"; lit "price_color"] in
  let availability_col :=
    detect_column df [lit "availability"; lit "Availability"; lit "stock";
                      lit "instock"] in
  let title_col :=
    detect_column df [lit "Title"; lit "title"; lit "Book_Name";
                      lit "Book_Name"; lit "name"] in
  let '(df, shown, filtered_df) := filter_by_price ui df price_col in
  (df, {| price_section := shown;
          stock_section := books_in_stock df availability_col;
          search_section := search_books ui df title_col;
          download := filtered_df |}).

(** One run of the script. *)
Definition main (w : world) (ui : widgets) (s : session)
  : session * option page * list message :=
  let '(s, m1) :=
    if load_csv_pressed ui then load_from_csv w s else (s, []) in
  let '(s, m2) :=
    if scrape_pressed ui then fst (scrape_new_data w s) else (s, []) in
  let '(s, m3) :=
    if load_database_pressed ui then load_from_database w s else (s, []) in
  match s with
  | None => (None, None, m1 ++ m2 ++ m3)
  | Some df =>
      if empty df then (Some df, None, m1 ++ m2 ++ m3)
      else let '(df', p) := render ui df in (Some df', Some p, m1 ++ m2 ++ m3)
  end.

(** * Vocabulary of the statements *)

(** [p] occurs in [s]: the meaning of Python's [p in s]. *)
Definition substring (p s : str) : Prop :=
  exists before after, s = before ++ p ++ after.

(** Some candidate, lowered, occurs in the lowered column name. *)
Definition names_match (possible_names : list str) (col : str) : Prop :=
  exists name, In name possible_names /\
               substring (PyStr.lower name) (PyStr.lower col).

(** What the detector is to return for the columns [cols] and the
    candidates [names]. *)
Inductive detected (cols names : list str) : option str -> Prop :=
| DetectedExact (pre post : list str) (name : str) :
    names = pre ++ name :: post ->
    In name cols ->
    (forall n, In n pre -> ~ In n cols) ->
    detected cols names (Some name)
| DetectedPartial (pre post : list str) (col : str) :
    (forall n, In n names -> ~ In n cols) ->
    cols = pre ++ col :: post ->
    names_match names col ->
    (forall c, In c pre -> ~ names_match names c) ->
    detected cols names (Some col)
| NotDetected :
    (forall n, In n names -> ~ In n cols) ->
    (forall c, In c cols -> ~ names_match names c) ->
    detected cols names None.

(** The record made of an entry of the listing, when the three reads
    succeed. *)
Definition record_of (a : article) : option BookRecord :=
  match title_attr a, price_text a, availability_text a with
  | Some t, Some p, Some v =>
      Some {| Book_Name := t; price := p; availability := PyStr.strip v |}
  | _, _, _ => None
  end.

Definition incomplete (a : article) : bool :=
  match record_of a with Some _ => false | None => true end.

(** The records of the entries that precede the first incomplete one. *)
Fixpoint records_before_failure (books : list article) : list BookRecord :=
  match books with
  | [] => []
  | a :: rest =>
      match record_of a with
      | Some r => r :: records_before_failure rest
      | None => []
      end
  end.

(** What one page contributes to the result. *)
Definition page_records (r : response) : list BookRecord :=
  match r with
  | Document (Some books) => records_before_failure books
  | _ => []
  end.

(** A page fails when its request raises or one of its entries lacks a
    field. *)
Definition page_failed (r : response) : bool :=
  match r with
  | RequestFailed => true
  | Document None => false
  | Document (Some books) => existsb incomplete books
  end.

(** The integer a price text is cleaned to: the artifact is removed, the
    rest is read as a float, the float is truncated. *)
Definition cleaned_price (s : str) : option Z :=
  match Parse.py_float (PyStr.replace artifact [] s) with
  | Some f => astype_int_cell f
  | None => None
  end.

(** The float a price text is read as, once the artifact is removed. *)
Definition price_float (s : str) : option float :=
  Parse.py_float (PyStr.replace artifact [] s).

(** The price text [s] cleans to the integer [z]: with the artifact
    removed it reads as a finite float, [z] is the integer part of that
    float, and [z] is a 64-bit integer. *)
Definition cleans_to (s : str) (z : Z) : Prop :=
  exists f, price_float s = Some f
            /\ Float64.trunc f = Some z
            /\ - 2 ^ 63 <= z < 2 ^ 63.

(** The table of the records [data] with the cells [vals] as prices. *)
Definition with_prices (data : list BookRecord) (vals : list cell)
  : DataFrame :=
  {| columns := [lit "Book_Name"; lit "price"; lit "availability"];
     rows := map (fun bv => [VStr (Book_Name (fst bv)); snd bv;
                             VStr (availability (fst bv))])
                 (combine data vals) |}.

(** *** Sample data *)

Definition book (title p stock : str) : BookRecord :=
  {| Book_Name := title; price := p; availability := stock |}.

(** Prices with the pound sign U+00A3 alone, as the site shows them. *)
Definition pound_books : list BookRecord :=
  [book (lit "A Light in the Attic") (163 :: lit "51.77") (lit "In stock");
   book (lit "Sharp Objects") (163 :: lit "23.00") (lit "In stock")].

(** Prices with the artifact, as the scraper receives them. *)
Definition artifact_books : list BookRecord :=
  [book (lit "A Light in the Attic") (artifact ++ lit "51.77") (lit "In stock");
   book (lit "Sharp Objects") (artifact ++ lit "23.00") (lit "In stock")].

(** A well-formed price next to a malformed one. *)
Definition mixed_books : list BookRecord :=
  [book (lit "A Light in the Attic") (artifact ++ lit "51.77") (lit "In stock");
   book (lit "Sharp Objects") (lit "abc") (lit "In stock")].

(** A price beyond the 64-bit integers. *)
Definition huge_books : list BookRecord :=
  [book (lit "Sapiens") (artifact ++ lit "1e30") (lit "In stock")].

(** *** A run of the scraper with failures

    Page 1 has two entries; the request of page 2 raises; on page 3 the
    second entry has no price; page 4 has no listing; page 5 has one
    entry. *)

Definition entry (title p : str) : article :=
  {| title_attr := Some title;
     price_text := Some p;
     availability_text := Some (lit "    In stock  ") |}.

Definition patchy_web (page : Z) : response :=
  if page =? 1 then
    Document (Some [entry (lit "A Light in the Attic") (artifact ++ lit "51.77");
                    entry (lit "Sharp Objects") (artifact ++ lit "47.82")])
  else if page =? 2 then RequestFailed
  else if page =? 3 then
    Document (Some [entry (lit "Soumission") (artifact ++ lit "50.10");
                    {| title_attr := Some (lit "Olio");
                       price_text := None;
                       availability_text := Some (lit "In stock") |};
                    entry (lit "Mesaerion") (artifact ++ lit "37.59")])
  else if page =? 4 then Document None
  else Document (Some [entry (lit "Sapiens") (artifact ++ lit "54.23")]).

(** A web whose page 2 comes without the listing (as the page of an HTTP
    error does: the status of the response is not looked at); page 1 and
    page 3 have one entry each, the listings of pages 4 and 5 are empty. *)
Definition web_without_page_2 (page : Z) : response :=
  if page =? 1 then
    Document (Some [entry (lit "A Light in the Attic") (artifact ++ lit "51.77")])
  else if page =? 2 then Document None
  else if page =? 3 then
    Document (Some [entry (lit "Sapiens") (artifact ++ lit "54.23")])
  else Document (Some []).

(** *** Loading *)

Inductive load_action := LoadCSV | LoadDatabase.

(** The session table after a load action. *)
Definition run_load (a : load_action) (w : world) (s : session) : session :=
  match a with
  | LoadCSV => fst (load_from_csv w s)
  | LoadDatabase => fst (load_from_database w s)
  end.

(** The source of a load action cannot be acquired: the file cannot be
    read, the database cannot be reached, or the query raises. *)
Inductive acquisition_fails (w : world) : load_action -> Prop :=
| CsvUnreadable : csv_file w = None -> acquisition_fails w LoadCSV
| DatabaseUnreachable : db_reachable w = false -> acquisition_fails w LoadDatabase
| QueryFails : db_table w = None -> acquisition_fails w LoadDatabase.

(** A world in which nothing can be acquired. *)
Definition offline : world :=
  {| csv_file := None;
     web := fun _ => RequestFailed;
     csv_writable := true;
     db_reachable := false;
     db_table := None;
     db_closes := true |}.

(** A sample slider, left where it starts: it answers with its default
    when the default lies between the bounds, and raises otherwise.  It
    serves in the examples; the theorems take any function as the
    slider. *)
Definition untouched_slider (min_value max_value value : Z) : option Z :=
  if (min_value <=? value) && (value <=? max_value) then Some value else None.

(** Widgets at rest: no button pressed, no search term. *)
Definition idle : widgets :=
  {| load_csv_pressed := false;
     scrape_pressed := false;
     load_database_pressed := false;
     slider := untouched_slider;
     search_term := [] |}.

Definition press_scrape : widgets :=
  {| load_csv_pressed := false;
     scrape_pressed := true;
     load_database_pressed := false;
     slider := untouched_slider;
     search_term := [] |}.

(** *** Views *)

(** The column the price view works on. *)
Definition price_column (df : DataFrame) : option str :=
  detect_column df [lit "price"; lit "Price"; lit "price_color"].

Definition is_float (c : cell) : bool :=
  match c with VFloat _ => true | _ => false end.

(** A column that is numeric already: of integers, or of floats. *)
Definition numeric (cells : list cell) : Prop :=
  forallb is_int cells = true \/ forallb is_float cells = true.

(** A loaded table with one price that is not a number; both prices are
    text, as in a column that [read_csv] could not read as numbers. *)
Definition odd_price_table : DataFrame :=
  {| columns := [lit "title"; lit "price"; lit "availability"];
     rows := [[VStr (lit "A Light in the Attic"); VStr (lit "51");
               VStr (lit "In stock")];
              [VStr (lit "Sharp Objects"); VStr (lit "abc");
               VStr (lit "In stock")]] |}.


(** The table the slider and the filter work on: the price column made
    numeric, the rows without a number dropped. *)
Definition cleaned_view (df : DataFrame) (col : str) (cells : list cell)
  : DataFrame :=
  dropna (set_column df col (to_numeric cells)) col.

(** A loaded table whose only price is 50.5. *)
Definition half_price_table : DataFrame :=
  {| columns := [lit "title"; lit "price"; lit "availability"];
     rows := [[VStr (lit "Sharp Objects");
               VFloat (Float64.of_decimal false 505 (-1));
               VStr (lit "In stock")]] |}.

(** A cleaned table, with integer prices. *)
Definition cleaned_table : DataFrame :=
  with_prices artifact_books [VInt 51; VInt 23].

(** A cleaned table all of whose prices are above 50. *)
Definition dear_table : DataFrame :=
  with_prices artifact_books [VInt 51; VInt 60].

(** The row has a value in column [i]. *)
Definition has_value (i : nat) (r : list cell) : bool :=
  negb (isna (nth i r VNone)).

(** A pattern without any of the special characters. *)
Definition plain (pat : str) : bool :=
  forallb (fun c => negb (Re.special c)) pat.

(** Every code point of the text is below U+0100 (Latin-1).  There
    [PyStr.lower] is Python's [lower()], and a pattern character and a
    character of the text match under [re.IGNORECASE] exactly when they
    lower to the same one. *)
Definition latin1 (s : str) : bool := forallb (fun c => c <? 256) s.


(** A loaded table with the three kinds of availability. *)
Definition stock_table : DataFrame :=
  {| columns := [lit "title"; lit "price"; lit "availability"];
     rows := [[VStr (lit "A Light in the Attic"); VInt 51;
               VStr (lit "In stock (19 available)")];
              [VStr (lit "Sharp Objects"); VInt 23; VStr (lit "Out of stock")];
              [VStr (lit "Soumission"); VInt 50; VFloat Float64.nan]] |}.

(** A loaded table in which a row has no title (an empty field of the
    CSV file). *)
Definition untitled_table : DataFrame :=
  {| columns := [lit "title"; lit "price"; lit "availability"];
     rows := [[VStr (lit "A Light in the Attic"); VInt 51;
               VStr (lit "In stock")];
              [VFloat Float64.nan; VInt 23; VStr (lit "In stock")]] |}.

(** A title printed with the long s, U+017F. *)
Definition long_s_title : str :=
  lit "Paradi" ++ [383] ++ lit "e Lo" ++ [383] ++ lit "t".

Definition long_s_table : DataFrame :=
  {| columns := [lit "title"; lit "price"; lit "availability"];
     rows := [[VStr long_s_title; VInt 12; VStr (lit "In stock")]] |}.

(** The user has typed [term] in the search box. *)
Definition searching (term : str) : widgets :=
  {| load_csv_pressed := false;
     scrape_pressed := false;
     load_database_pressed := false;
     slider := untouched_slider;
     search_term := term |}.

(** *** Further vocabulary *)

(** The text neither begins nor ends with white space. *)
Definition trimmed (s : str) : Prop :=
  match s with c :: _ => PyStr.isspace c = false | [] => True end
  /\ match rev s with c :: _ => PyStr.isspace c = false | [] => True end.

(** The records of all the entries of a page, read or not. *)
Definition page_entries (r : response) : list (option BookRecord) :=
  match r with
  | Document (Some books) => map record_of books
  | _ => []
  end.

(** A web without failure: one entry on page 1, no listing elsewhere. *)
Definition quiet_web (page : Z) : response :=
  if page =? 1
  then Document (Some [entry (lit "Sapiens") (artifact ++ lit "54.23")])
  else Document None.

(** A price that reads as a float with no integer value. *)
Definition nan_books : list BookRecord :=
  [book (lit "A Light in the Attic") (artifact ++ lit "51.77") (lit "In stock");
   book (lit "Sharp Objects") (artifact ++ lit "nan") (lit "In stock")].

(** The columns the other two views work on. *)
Definition availability_column (df : DataFrame) : option str :=
  detect_column df [lit "availability"; lit "Availability"; lit "stock";
                    lit "instock"].

Definition title_column (df : DataFrame) : option str :=
  detect_column df [lit "Title"; lit "title"; lit "Book_Name";
                    lit "Book_Name"; lit "name"].

(** Every row has one cell for each column, as in every pandas table. *)
Definition rectangular (df : DataFrame) : Prop :=
  Forall (fun r => List.length r = List.length (columns df)) (rows df).

(** Only "Scrape New Data" is pressed. *)
Definition scraping (ui : widgets) : Prop :=
  load_csv_pressed ui = false
  /\ scrape_pressed ui = true
  /\ load_database_pressed ui = false.

(** A world in which the database answers and the connection then fails
    to close. *)
Definition closing_fails : world :=
  {| csv_file := None;
     web := fun _ => RequestFailed;
     csv_writable := true;
     db_reachable := true;
     db_table := Some cleaned_table;
     db_closes := false |}.

(** A cleaned table whose dearest price, 60.25, has a fractional part. *)
Definition fraction_table : DataFrame :=
  {| columns := [lit "title"; lit "price"];
     rows := [[VStr (lit "Sharp Objects"); VFloat (Float64.of_Z 23)];
              [VStr (lit "Sapiens");
               VFloat (Float64.of_decimal false 6025 (-2))]] |}.

(** * Properties *)

(** ** Facts about strings and lists *)

Lemma str_eqb_eq (a b : str) : PyStr.eqb a b = true <-> a = b.
Proof.
  revert b; induction a as [|x a IH]; intros [|y b]; simpl;
    try (split; [discriminate | congruence]); try tauto.
  rewrite andb_true_iff, Z.eqb_eq, IH. split.
  - intros [-> ->]; reflexivity.
  - intros H; injection H; auto.
Qed.

Lemma str_eqb_refl (a : str) : PyStr.eqb a a = true.
Proof. apply str_eqb_eq; reflexivity. Qed.

(** [p] is a prefix of [s]. *)
Lemma startswith_spec (p s : str) :
  PyStr.startswith p s = true <-> exists rest, s = p ++ rest.
Proof.
  revert s; induction p as [|x p IH]; intros s; simpl.
  - split; [intros _; exists s; reflexivity | reflexivity].
  - destruct s as [|y s].
    + split; [discriminate | intros [rest H]; discriminate].
    + rewrite andb_true_iff, Z.eqb_eq, IH. split.
      * intros [-> [rest ->]]; exists rest; reflexivity.
      * intros [rest H]; injection H as -> ->; split; [reflexivity | eauto].
Qed.

Lemma contains_spec (p s : str) :
  PyStr.contains p s = true <-> substring p s.
Proof.
  unfold substring. induction s as [|c s IH].
  - simpl. rewrite orb_false_r, startswith_spec. split.
    + intros [rest H]. exists [], rest. exact H.
    + intros [[|b before] [after H]].
      * exists after; exact H.
      * discriminate.
  - change (PyStr.contains p (c :: s))
      with (PyStr.startswith p (c :: s) || PyStr.contains p s).
    rewrite orb_true_iff, startswith_spec, IH. split.
    + intros [[rest H] | [before [after H]]].
      * exists [], rest; exact H.
      * exists (c :: before), after; rewrite H; reflexivity.
    + intros [[|b before] [after H]].
      * left; exists after; exact H.
      * right; injection H as _ H; exists before, after; exact H.
Qed.

Lemma has_column_In (df : DataFrame) (name : str) :
  has_column df name = true <-> In name (columns df).
Proof.
  unfold has_column. rewrite existsb_exists. split.
  - intros [c [Hin Heq]]. apply str_eqb_eq in Heq. subst; exact Hin.
  - intros Hin. exists name. split; [exact Hin | apply str_eqb_refl].
Qed.

(** The first element of a list with a property is determined. *)
Lemma first_unique {A : Type} (P : A -> Prop) (l pre pre' post post' : list A)
  (x x' : A) :
  l = pre ++ x :: post -> l = pre' ++ x' :: post' ->
  P x -> P x' ->
  (forall y, In y pre -> ~ P y) -> (forall y, In y pre' -> ~ P y) ->
  x = x'.
Proof.
  revert l pre'. induction pre as [|a pre IH]; intros l pre' -> H Px Px' Hpre Hpre'.
  - destruct pre' as [|b pre']; simpl in H.
    + congruence.
    + injection H as -> _. exfalso. apply (Hpre' b); simpl; auto.
  - destruct pre' as [|b pre']; simpl in H.
    + injection H as -> _. exfalso. apply (Hpre x'); simpl; auto.
    + injection H as -> H.
      apply (IH _ pre' eq_refl H Px Px').
      * intros y Hy; apply Hpre; simpl; auto.
      * intros y Hy; apply Hpre'; simpl; auto.
Qed.

(** ** Column detection *)

Lemma names_match_existsb (names : list str) (col : str) :
  existsb (fun name => PyStr.contains (PyStr.lower name) (PyStr.lower col))
          names = true
  <-> names_match names col.
Proof.
  unfold names_match. rewrite existsb_exists.
  split; intros [n [Hin H]]; exists n; (split; [exact Hin|]);
    apply contains_spec; exact H.
Qed.

Lemma detect_exact_some (df : DataFrame) (names : list str) (name : str) :
  detect_exact df names = Some name ->
  exists pre post, names = pre ++ name :: post /\ In name (columns df) /\
                   forall n, In n pre -> ~ In n (columns df).
Proof.
  induction names as [|n names IH]; simpl; [discriminate|].
  destruct (has_column df n) eqn:E.
  - intros H; injection H as <-. exists [], names.
    repeat split; [apply has_column_In; exact E | intros ? []].
  - intros H. destruct (IH H) as [pre [post [-> [Hin Hpre]]]].
    exists (n :: pre), post. repeat split; [exact Hin|].
    intros m [<- | Hm]; [|apply Hpre; exact Hm].
    intros Hc. apply has_column_In in Hc. congruence.
Qed.

Lemma detect_exact_none (df : DataFrame) (names : list str) :
  detect_exact df names = None ->
  forall n, In n names -> ~ In n (columns df).
Proof.
  induction names as [|n names IH]; simpl; [intros _ ? []|].
  destruct (has_column df n) eqn:E; [discriminate|].
  intros H m [<- | Hm]; [|apply IH; assumption].
  intros Hc. apply has_column_In in Hc. congruence.
Qed.

Lemma detect_partial_some (cols names : list str) (col : str) :
  detect_partial cols names = Some col ->
  exists pre post, cols = pre ++ col :: post /\ names_match names col /\
                   forall c, In c pre -> ~ names_match names c.
Proof.
  induction cols as [|c cols IH]; simpl; [discriminate|].
  destruct (existsb _ names) eqn:E.
  - intros H; injection H as <-. exists [], cols.
    repeat split; [apply names_match_existsb; exact E | intros ? []].
  - intros H. destruct (IH H) as [pre [post [-> [Hm Hpre]]]].
    exists (c :: pre), post. repeat split; [exact Hm|].
    intros d [<- | Hd]; [|apply Hpre; exact Hd].
    intros Hc. apply names_match_existsb in Hc. congruence.
Qed.

Lemma detect_partial_none (cols names : list str) :
  detect_partial cols names = None ->
  forall c, In c cols -> ~ names_match names c.
Proof.
  induction cols as [|c cols IH]; simpl; [intros _ ? []|].
  destruct (existsb _ names) eqn:E; [discriminate|].
  intros H d [<- | Hd]; [|apply IH; assumption].
  intros Hc. apply names_match_existsb in Hc. congruence.
Qed.

Lemma detect_column_detected (df : DataFrame) (names : list str) :
  detected (columns df) names (detect_column df names).
Proof.
  unfold detect_column. destruct (detect_exact df names) as [name|] eqn:E.
  - destruct (detect_exact_some _ _ E) as [pre [post [H1 [H2 H3]]]].
    eapply DetectedExact; eauto.
  - pose proof (detect_exact_none _ _ E) as Hno.
    destruct (detect_partial (columns df) names) as [col|] eqn:P.
    + destruct (detect_partial_some _ _ P) as [pre [post [H1 [H2 H3]]]].
      eapply DetectedPartial; eauto.
    + apply NotDetected; [exact Hno | apply detect_partial_none; exact P].
Qed.

Lemma detected_functional (cols names : list str) (r r' : option str) :
  detected cols names r -> detected cols names r' -> r = r'.
Proof.
  intros H H'. destruct H as [pre post name Hn Hin Hpre
                             |pre post col Hno Hc Hm Hpre
                             |Hno Hnm];
    destruct H' as [pre' post' name' Hn' Hin' Hpre'
                   |pre' post' col' Hno' Hc' Hm' Hpre'
                   |Hno' Hnm'].
  - f_equal. eapply (@first_unique _ (fun n => In n cols)); eassumption.
  - exfalso. apply (Hno' name); [rewrite Hn; apply in_elt | exact Hin].
  - exfalso. apply (Hno' name); [rewrite Hn; apply in_elt | exact Hin].
  - exfalso. apply (Hno name'); [rewrite Hn'; apply in_elt | exact Hin'].
  - f_equal. eapply (@first_unique _ (names_match names)); eassumption.
  - exfalso. apply (Hnm' col); [rewrite Hc; apply in_elt | exact Hm].
  - exfalso. apply (Hno name'); [rewrite Hn'; apply in_elt | exact Hin'].
  - exfalso. apply (Hnm col'); [rewrite Hc'; apply in_elt | exact Hm'].
  - reflexivity.
Qed.

(** C5.  [detect_column] returns exactly what the detection rules say: the
    first candidate, in candidate order, that is a column name; failing
    that, the first column, in table order, whose lowered name contains a
    lowered candidate; failing that, nothing.  It is a total function, so
    it returns in every case. *)
Theorem detect_column_spec (df : DataFrame) (names : list str)
  (r : option str) :
  detect_column df names = r <-> detected (columns df) names r.
Proof.
  split.
  - intros <-. apply detect_column_detected.
  - intros H. exact (detected_functional (detect_column_detected df names) H).
Qed.

(** ** The scraper *)

Lemma scrape_entries_spec (books : list article) (data : list BookRecord) :
  scrape_entries books data
  = (data ++ records_before_failure books, existsb incomplete books).
Proof.
  revert data. induction books as [|a books IH]; intros data; simpl.
  - rewrite app_nil_r; reflexivity.
  - unfold incomplete, record_of.
    destruct (title_attr a), (price_text a), (availability_text a); simpl;
      try (rewrite app_nil_r; reflexivity).
    rewrite IH, <- app_assoc. reflexivity.
Qed.

Lemma scrape_page_spec (web : Z -> response) (data : list BookRecord)
  (errors : list message) (page : Z) :
  scrape_page web (data, errors) page
  = (data ++ page_records (web page),
     errors ++ (if page_failed (web page) then [ErrorScrapingPage page] else [])).
Proof.
  unfold scrape_page, page_records, page_failed.
  destruct (web page) as [|[books|]].
  - rewrite app_nil_r; reflexivity.
  - rewrite scrape_entries_spec.
    destruct (existsb incomplete books); rewrite ?app_nil_r; reflexivity.
  - rewrite !app_nil_r; reflexivity.
Qed.

Lemma scrape_pages_spec (web : Z -> response) (ps : list Z)
  (data : list BookRecord) (errors : list message) :
  fold_left (scrape_page web) ps (data, errors)
  = (data ++ List.concat (map (fun p => page_records (web p)) ps),
     errors ++ map ErrorScrapingPage (filter (fun p => page_failed (web p)) ps)).
Proof.
  revert data errors. induction ps as [|p ps IH]; intros data errors.
  - simpl. rewrite !app_nil_r; reflexivity.
  - cbn [fold_left map filter List.concat].
    rewrite scrape_page_spec, IH, <- !app_assoc.
    destruct (page_failed (web p)); reflexivity.
Qed.

(** On a page that does not fail, every entry gives its record. *)
Lemma page_records_complete (books : list article) :
  existsb incomplete books = false ->
  map Some (records_before_failure books) = map record_of books.
Proof.
  induction books as [|a books IH]; simpl; [reflexivity|].
  unfold incomplete at 1. destruct (record_of a); simpl; [|discriminate].
  intros H. rewrite IH by exact H. reflexivity.
Qed.

(** C9, in the form the code satisfies.  A page fails when its request
    raises or when one of its entries lacks an element that is read.
    Whatever the five requests return, the scraper returns: its records
    are those of page 1, then page 2, ... then page 5, each page giving
    the records of its entries in their order up to the first entry that
    raises (none when the request itself raises), and its diagnostics are
    one per failed page, in page order.  A page that does not fail gives
    the records of all its entries (a document without the listing raises
    nothing and gives none).  So a failure on one page neither stops the
    run nor removes the records of the other pages. *)
Theorem scrape_books_data_spec (web : Z -> response) :
  scrape_books_data web
  = (List.concat (map (fun p => page_records (web p)) pages),
     map ErrorScrapingPage (filter (fun p => page_failed (web p)) pages))
  /\ (forall p books,
        web p = Document (Some books) -> page_failed (web p) = false ->
        map Some (page_records (web p)) = map record_of books).
Proof.
  split.
  - unfold scrape_books_data. rewrite scrape_pages_spec. reflexivity.
  - intros p books ->. simpl. apply page_records_complete.
Qed.

Lemma scrape_books_data_spec_witness :
  scrape_books_data patchy_web
  = ([book (lit "A Light in the Attic") (artifact ++ lit "51.77")
           (lit "In stock");
      book (lit "Sharp Objects") (artifact ++ lit "47.82") (lit "In stock");
      book (lit "Soumission") (artifact ++ lit "50.10") (lit "In stock");
      book (lit "Sapiens") (artifact ++ lit "54.23") (lit "In stock")],
     [ErrorScrapingPage 2; ErrorScrapingPage 3])
  /\ map Some (page_records (patchy_web 1))
     = map record_of
         [entry (lit "A Light in the Attic") (artifact ++ lit "51.77");
          entry (lit "Sharp Objects") (artifact ++ lit "47.82")].
Proof.
  destruct (scrape_books_data_spec patchy_web) as [H1 H2]. split.
  - rewrite H1. reflexivity.
  - apply H2; reflexivity.
Defined.

(** C9 does not hold for a page that comes without the listing: the
    guard [if books_list:] skips it and nothing raises, so page 2 gives
    no record and no diagnostic either; the run reports nothing at all
    and returns the records of pages 1 and 3. *)
Lemma missing_listing_gives_no_diagnostic :
  web_without_page_2 2 = Document None
  /\ scrape_books_data web_without_page_2
     = ([book (lit "A Light in the Attic") (artifact ++ lit "51.77")
              (lit "In stock");
         book (lit "Sapiens") (artifact ++ lit "54.23") (lit "In stock")],
        []).
Proof. split; vm_compute; reflexivity. Qed.

(** ** The cleaner *)

Lemma try_map_Forall2 {A B : Type} (f : A -> option B) (l : list A)
  (l' : list B) :
  Forall2 (fun x y => f x = Some y) l l' -> try_map f l = Some l'.
Proof.
  induction 1 as [|x y l l' Hxy _ IH]; simpl; [reflexivity|].
  rewrite Hxy, IH. reflexivity.
Qed.

Lemma try_map_fails {A B : Type} (f : A -> option B) (l : list A) (x : A) :
  In x l -> f x = None -> try_map f l = None.
Proof.
  induction l as [|y l IH]; simpl; [intros []|].
  intros [-> | Hin] Hx.
  - rewrite Hx; reflexivity.
  - destruct (f y); [|reflexivity]. rewrite (IH Hin Hx). reflexivity.
Qed.

Lemma price_index :
  index_of (lit "price") [lit "Book_Name"; lit "price"; lit "availability"]
  = Some 1%nat.
Proof. reflexivity. Qed.

Lemma DataFrame_of_with_prices (data : list BookRecord) :
  data <> [] ->
  DataFrame_of data = with_prices data (map (fun b => VStr (price b)) data).
Proof.
  destruct data as [|b data]; [congruence|]. intros _.
  unfold DataFrame_of, with_prices. f_equal.
  generalize (b :: data). intros l. induction l as [|a l IH]; simpl;
    [reflexivity | rewrite IH; reflexivity].
Qed.

Lemma get_column_with_prices (data : list BookRecord) (vals : list cell) :
  List.length vals = List.length data ->
  get_column (with_prices data vals) (lit "price") = Some vals.
Proof.
  unfold get_column, with_prices. cbn [columns rows]. rewrite price_index.
  intros H. f_equal. revert vals H.
  induction data as [|b data IH]; intros [|v vals] H; simpl in *;
    try discriminate; [reflexivity|].
  rewrite IH by congruence. reflexivity.
Qed.

Lemma set_column_with_prices (data : list BookRecord) (old vals : list cell) :
  List.length old = List.length data ->
  List.length vals = List.length data ->
  set_column (with_prices data old) (lit "price") vals = with_prices data vals.
Proof.
  unfold set_column, with_prices. cbn [columns rows]. rewrite price_index.
  intros Ho Hv. f_equal. revert old vals Ho Hv.
  induction data as [|b data IH]; intros [|o old] [|v vals] Ho Hv; simpl in *;
    try discriminate; [reflexivity|].
  rewrite IH by congruence. reflexivity.
Qed.

Lemma cleaned_price_inv (s : str) (z : Z) :
  cleaned_price s = Some z ->
  exists f, astype_float_cell (str_replace_cell (VStr s)) = Some f /\
            astype_int_cell f = Some z.
Proof.
  unfold cleaned_price. cbn [astype_float_cell str_replace_cell].
  destruct (Parse.py_float (PyStr.replace artifact [] s)) as [f|];
    intros H; [|discriminate H].
  exists f. split; [reflexivity | exact H].
Qed.

(** When every price cleans, the table comes back with the cleaned
    integers as its prices and nothing is reported. *)
Lemma clean_data_success (data : list BookRecord) (ints : list Z) :
  data <> [] ->
  Forall2 (fun b z => cleaned_price (price b) = Some z) data ints ->
  clean_data (DataFrame_of data) = (with_prices data (map VInt ints), []).
Proof.
  intros Hne H.
  assert (Hlen : List.length ints = List.length data)
    by (symmetry; eapply Forall2_length; exact H).
  assert (Hf : exists floats,
             Forall2 (fun c f => astype_float_cell c = Some f)
                     (map str_replace_cell (map (fun b => VStr (price b)) data))
                     floats /\
             Forall2 (fun f z => astype_int_cell f = Some z) floats ints).
  { clear Hne Hlen. induction H as [|b z data ints Hb _ [floats [IH1 IH2]]].
    - exists []. split; constructor.
    - destruct (cleaned_price_inv _ Hb) as [f [Hf Hz]].
      exists (f :: floats). split; constructor; assumption. }
  destruct Hf as [floats [Hfl Hin]].
  assert (Hlf : List.length floats = List.length data).
  { rewrite <- Hlen. eapply Forall2_length; exact Hin. }
  rewrite DataFrame_of_with_prices by exact Hne.
  unfold clean_data.
  rewrite get_column_with_prices by (rewrite length_map; reflexivity).
  rewrite (try_map_Forall2 _ Hfl), (try_map_Forall2 _ Hin).
  rewrite set_column_with_prices
    by (rewrite length_map; (reflexivity || exact Hlf)).
  rewrite set_column_with_prices
    by (rewrite length_map; (exact Hlf || exact Hlen)).
  reflexivity.
Qed.

Lemma Forall_cleaned (data : list BookRecord) :
  Forall (fun b => cleaned_price (price b) <> None) data ->
  exists ints, Forall2 (fun b z => cleaned_price (price b) = Some z) data ints.
Proof.
  induction 1 as [|b data Hb _ [ints IH]].
  - exists []. constructor.
  - destruct (cleaned_price (price b)) as [z|] eqn:E; [|congruence].
    exists (z :: ints). constructor; assumption.
Qed.

Lemma Forall2_nth_error {A B : Type} (R : A -> B -> Prop) (l : list A)
  (l' : list B) (i : nat) (x : A) :
  Forall2 R l l' -> nth_error l i = Some x ->
  exists y, nth_error l' i = Some y /\ R x y.
Proof.
  intros H. revert i. induction H as [|a b l l' Hab _ IH]; intros [|i] Hi;
    simpl in *; try discriminate.
  - injection Hi as <-. exists b. split; [reflexivity | exact Hab].
  - apply IH; exact Hi.
Qed.

Lemma cleaned_51_77 : cleaned_price (artifact ++ lit "51.77") = Some 51.
Proof. vm_compute. reflexivity. Qed.

Lemma cleaned_23_00 : cleaned_price (artifact ++ lit "23.00") = Some 23.
Proof. vm_compute. reflexivity. Qed.

Lemma cleans_to_cleaned (s : str) (z : Z) :
  cleans_to s z -> cleaned_price s = Some z.
Proof.
  intros [f [Hf [Hz [Hlo Hhi]]]]. unfold cleaned_price.
  unfold price_float in Hf. rewrite Hf. unfold astype_int_cell. rewrite Hz.
  apply Z.leb_le in Hlo. apply Z.ltb_lt in Hhi. rewrite Hlo, Hhi.
  reflexivity.
Qed.

Lemma Forall_cleans_to (data : list BookRecord) :
  Forall (fun b => exists z, cleans_to (price b) z) data ->
  exists ints, Forall2 (fun b z => cleans_to (price b) z) data ints.
Proof.
  induction 1 as [|b data [z Hb] _ [ints IH]].
  - exists []. constructor.
  - exists (z :: ints). constructor; assumption.
Qed.

(** C1, in the form the code satisfies.  In a scraped table all of whose
    price texts clean (the artifact U+00C2 U+00A3 removed, the rest reads
    as a finite float whose integer part is a 64-bit integer), nothing is
    reported and the price of every row becomes the integer part of the
    float its text reads as; the texts made of the artifact and 51.77 or
    23.00 become 51 and 23. *)
Theorem clean_data_truncates (data : list BookRecord) (i : nat)
  (b : BookRecord) :
  Forall (fun b => exists z, cleans_to (price b) z) data ->
  nth_error data i = Some b ->
  exists col z,
    get_column (fst (clean_data (DataFrame_of data))) (lit "price") = Some col
    /\ snd (clean_data (DataFrame_of data)) = []
    /\ cleans_to (price b) z
    /\ nth_error col i = Some (VInt z)
    /\ (price b = artifact ++ lit "51.77" -> nth_error col i = Some (VInt 51))
    /\ (price b = artifact ++ lit "23.00" -> nth_error col i = Some (VInt 23)).
Proof.
  intros Hall Hi.
  destruct (Forall_cleans_to Hall) as [ints Hto].
  assert (Hints : Forall2 (fun b z => cleaned_price (price b) = Some z)
                          data ints).
  { eapply Forall2_impl; [|exact Hto]. intros x z. apply cleans_to_cleaned. }
  assert (Hne : data <> []) by (intros ->; destruct i; discriminate).
  rewrite (clean_data_success Hne Hints). cbn [fst snd].
  destruct (Forall2_nth_error _ Hto Hi) as [z [Hz Hb]].
  exists (map VInt ints), z.
  assert (Hcol : nth_error (map VInt ints) i = Some (VInt z))
    by (rewrite nth_error_map, Hz; reflexivity).
  apply cleans_to_cleaned in Hb as Hc.
  split; [|split; [reflexivity|split; [exact Hb|split; [exact Hcol|split]]]].
  - apply get_column_with_prices. rewrite length_map.
    symmetry; eapply Forall2_length; exact Hints.
  - intros E. rewrite E, cleaned_51_77 in Hc. rewrite Hcol. congruence.
  - intros E. rewrite E, cleaned_23_00 in Hc. rewrite Hcol. congruence.
Qed.

Lemma clean_data_truncates_witness :
  exists col,
    get_column (fst (clean_data (DataFrame_of artifact_books))) (lit "price")
    = Some col
    /\ nth_error col 0 = Some (VInt 51).
Proof.
  destruct (@clean_data_truncates artifact_books 0
              (book (lit "A Light in the Attic") (artifact ++ lit "51.77")
                    (lit "In stock")))
    as [col [z [H1 [_ [_ [_ [H2 _]]]]]]].
  - repeat constructor.
    + exists 51. eexists. split; [vm_compute; reflexivity|].
      split; [vm_compute; reflexivity|].
      split; [vm_compute; discriminate | vm_compute; reflexivity].
    + exists 23. eexists. split; [vm_compute; reflexivity|].
      split; [vm_compute; reflexivity|].
      split; [vm_compute; discriminate | vm_compute; reflexivity].
  - reflexivity.
  - exists col. split; [exact H1 | apply H2; reflexivity].
Defined.

(** C1 does not hold for the price texts that begin with the pound sign
    U+00A3 alone: they do not read as floats, the cleaner reports an error
    and the prices stay text. *)
Lemma clean_data_pound_sign_not_cleaned :
  clean_data (DataFrame_of pound_books)
  = (DataFrame_of pound_books, [ErrorCleaningData])
  /\ get_column (fst (clean_data (DataFrame_of pound_books))) (lit "price")
     <> Some [VInt 51; VInt 23].
Proof.
  split; [vm_compute; reflexivity | vm_compute; discriminate].
Qed.

(** C1 needs the bound on the integer part too: the text made of the
    artifact and 1e30 reads as a float whose integer part is beyond the
    64-bit integers; the cleaner reports nothing and stores the integer
    of the cast, which is not that integer part. *)
Lemma clean_data_price_out_of_range :
  (exists f, price_float (artifact ++ lit "1e30") = Some f
             /\ Float64.trunc f = Some 1000000000000000019884624838656)
  /\ clean_data (DataFrame_of huge_books)
     = (with_prices huge_books [VInt (- 2 ^ 63)], []).
Proof.
  split; [eexists; split; vm_compute; reflexivity | vm_compute; reflexivity].
Qed.

(** C2, in the form the code satisfies.  When one price cell does not read
    as a float, the cleaner reports the error and returns the table as it
    was: no row is cleaned, the well-formed ones included. *)
Theorem clean_data_all_or_nothing (df : DataFrame) (col : list cell)
  (c : cell) :
  get_column df (lit "price") = Some col ->
  In c col ->
  astype_float_cell (str_replace_cell c) = None ->
  clean_data df = (df, [ErrorCleaningData]).
Proof.
  intros Hcol Hin Hc. unfold clean_data. rewrite Hcol.
  rewrite (try_map_fails astype_float_cell (map str_replace_cell col)
             (str_replace_cell c)); [reflexivity | | exact Hc].
  apply in_map; exact Hin.
Qed.

Lemma clean_data_all_or_nothing_witness :
  clean_data (DataFrame_of mixed_books)
  = (DataFrame_of mixed_books, [ErrorCleaningData]).
Proof.
  apply (@clean_data_all_or_nothing (DataFrame_of mixed_books)
           [VStr (artifact ++ lit "51.77"); VStr (lit "abc")]
           (VStr (lit "abc"))).
  - reflexivity.
  - simpl; auto.
  - vm_compute; reflexivity.
Defined.

(** C2 does not hold as stated: next to a malformed price, the
    well-formed one, which alone cleans to 51, is left as text. *)
Lemma clean_data_malformed_blocks_others :
  cleaned_price (artifact ++ lit "51.77") = Some 51
  /\ cleaned_price (lit "abc") = None
  /\ get_column (fst (clean_data (DataFrame_of mixed_books))) (lit "price")
     = Some [VStr (artifact ++ lit "51.77"); VStr (lit "abc")].
Proof. repeat split; vm_compute; reflexivity. Qed.

(** ** Load actions and the session table *)

(** C4, in the form the code satisfies.  When the CSV file cannot be read,
    or the database cannot be reached or queried, the load action leaves
    the session table as it was. *)
Theorem failed_load_keeps_session (w : world) (a : load_action) (s : session) :
  acquisition_fails w a -> run_load a w s = s.
Proof.
  intros [H | H | H]; unfold run_load, load_from_csv, load_from_database,
    connect_database.
  - rewrite H; reflexivity.
  - rewrite H; reflexivity.
  - rewrite H. destruct (db_reachable w); reflexivity.
Qed.

Lemma failed_load_keeps_session_witness :
  run_load LoadDatabase offline (Some cleaned_table)
  = Some cleaned_table.
Proof.
  apply (@failed_load_keeps_session offline LoadDatabase).
  apply DatabaseUnreachable. reflexivity.
Defined.

(** A scrape run always replaces the session table, by the cleaned table
    of the records it acquired. *)
Lemma scrape_replaces_session (w : world) (s : session) :
  fst (fst (scrape_new_data w s))
  = Some (fst (clean_data (DataFrame_of (fst (scrape_books_data (web w)))))).
Proof.
  unfold scrape_new_data.
  destruct (scrape_books_data (web w)) as [data errors]. cbn [fst].
  destruct (clean_data (DataFrame_of data)) as [df errors'].
  destruct (csv_writable w); reflexivity.
Qed.

(** C4 does not hold for a scrape run: when every request fails, no
    record is acquired, and the table loaded before is replaced by the
    table without columns. *)
Lemma failed_scrape_replaces_session :
  fst (scrape_books_data (web offline)) = []
  /\ fst (fst (main offline press_scrape (Some cleaned_table)))
     = Some {| columns := []; rows := [] |}
  /\ fst (fst (main offline press_scrape (Some cleaned_table)))
     <> Some cleaned_table.
Proof.
  split; [reflexivity | split; [vm_compute; reflexivity | vm_compute; discriminate]].
Qed.

(** ** Facts about tables *)

Lemma select_map_filter {A : Type} (f : list cell -> A) (g : A -> bool)
  (rs : list (list cell)) :
  select (map g (map f rs)) rs = filter (fun r => g (f r)) rs.
Proof.
  induction rs as [|r rs IH]; simpl; [reflexivity|].
  rewrite IH. reflexivity.
Qed.



Lemma get_column_index (df : DataFrame) (name : str) (i : nat) :
  index_of name (columns df) = Some i ->
  get_column df name = Some (map (fun r => nth i r VNone) (rows df)).
Proof. unfold get_column. intros ->. reflexivity. Qed.

Lemma set_nth_same (i : nat) (r : list cell) :
  set_nth i (nth i r VNone) r = r.
Proof.
  revert r. induction i as [|i IH]; intros [|c r]; simpl; try reflexivity.
  rewrite IH. reflexivity.
Qed.

Lemma nth_set_nth_other (i j : nat) (v : cell) (r : list cell) :
  i <> j -> nth j (set_nth i v r) VNone = nth j r VNone.
Proof.
  revert j r. induction i as [|i IH]; intros [|j] [|c r] H; simpl;
    try reflexivity; try congruence.
  apply IH. congruence.
Qed.

Lemma set_column_columns (df : DataFrame) (name : str) (i : nat)
  (values : list cell) :
  index_of name (columns df) = Some i ->
  columns (set_column df name values) = columns df.
Proof. unfold set_column. intros ->. reflexivity. Qed.

Lemma set_column_rows_length (df : DataFrame) (name : str) (i : nat)
  (values : list cell) :
  index_of name (columns df) = Some i ->
  List.length values = List.length (rows df) ->
  List.length (rows (set_column df name values)) = List.length (rows df).
Proof.
  unfold set_column. intros -> H. cbn [rows].
  rewrite length_map, length_combine, H. apply Nat.min_id.
Qed.

Lemma set_column_get_column (df : DataFrame) (name : str)
  (cells : list cell) :
  get_column df name = Some cells -> set_column df name cells = df.
Proof.
  destruct df as [cols rs]. unfold get_column, set_column. cbn [columns rows].
  destruct (index_of name cols) as [i|]; [|discriminate].
  intros H; injection H as <-. f_equal.
  induction rs as [|r rs IH]; simpl; [reflexivity|].
  rewrite set_nth_same, IH. reflexivity.
Qed.

Lemma index_of_nth_error (name : str) (cols : list str) (i : nat) :
  index_of name cols = Some i -> nth_error cols i = Some name.
Proof.
  revert i. induction cols as [|c cols IH]; simpl; [discriminate|].
  destruct (PyStr.eqb name c) eqn:E.
  - intros i H; injection H as <-. apply str_eqb_eq in E. subst; reflexivity.
  - destruct (index_of name cols) as [j|]; [|discriminate].
    intros i H; injection H as <-. simpl. apply IH. reflexivity.
Qed.

Lemma get_column_set_other (df : DataFrame) (name other : str) (i : nat)
  (values : list cell) :
  index_of name (columns df) = Some i ->
  List.length values = List.length (rows df) ->
  other <> name ->
  get_column (set_column df name values) other = get_column df other.
Proof.
  intros Hi Hlen Hne. unfold get_column.
  erewrite set_column_columns by exact Hi.
  destruct (index_of other (columns df)) as [j|] eqn:Hj; [|reflexivity].
  assert (i <> j).
  { intros ->. apply index_of_nth_error in Hi, Hj. congruence. }
  f_equal. unfold set_column. rewrite Hi. cbn [rows].
  revert values Hlen. induction (rows df) as [|r rs IH]; intros [|v values] Hlen;
    simpl in *; try discriminate; [reflexivity|].
  rewrite nth_set_nth_other by assumption. rewrite IH by congruence.
  reflexivity.
Qed.

Lemma to_numeric_length (cells : list cell) :
  List.length (to_numeric cells) = List.length cells.
Proof.
  unfold to_numeric. destruct (forallb _ _); rewrite ?length_map; reflexivity.
Qed.

Lemma to_numeric_numeric (cells : list cell) :
  numeric cells -> to_numeric cells = cells.
Proof.
  unfold to_numeric. intros [H | H].
  - assert (E : map to_numeric_cell cells = cells).
    { induction cells as [|c cells IH]; simpl in *; [reflexivity|].
      apply andb_true_iff in H. destruct H as [Hc H].
      destruct c; try discriminate. rewrite IH by exact H. reflexivity. }
    rewrite E, H. reflexivity.
  - assert (E : map to_numeric_cell cells = cells).
    { induction cells as [|c cells IH]; simpl in *; [reflexivity|].
      apply andb_true_iff in H. destruct H as [Hc H].
      destruct c; try discriminate. rewrite IH by exact H. reflexivity. }
    rewrite E. destruct (forallb is_int cells); [reflexivity|].
    clear E. induction cells as [|c cells IH]; simpl in *; [reflexivity|].
    apply andb_true_iff in H. destruct H as [Hc H].
    destruct c; try discriminate. rewrite IH by exact H. reflexivity.
Qed.

(** ** The views and the session table *)

Lemma filter_by_price_table (ui : widgets) (df : DataFrame) (c : Z)
  (col : str) (cells : list cell) :
  get_column df (c :: col) = Some cells ->
  fst (fst (filter_by_price ui df (Some (c :: col))))
  = set_column df (c :: col) (to_numeric cells).
Proof.
  intros H. unfold filter_by_price. rewrite H.
  destruct (slider_arguments _ _) as [[[mn mx] d]|]; [|reflexivity].
  destruct (slider ui mn mx d); reflexivity.
Qed.

Lemma render_table (ui : widgets) (df : DataFrame) :
  fst (render ui df) = fst (fst (filter_by_price ui df (price_column df))).
Proof.
  unfold render, price_column.
  destruct (filter_by_price ui df _) as [[df' shown] filtered]. reflexivity.
Qed.

Lemma detect_column_is_column (df : DataFrame) (names : list str) (col : str) :
  detect_column df names = Some col -> In col (columns df).
Proof.
  intros H. pose proof (detect_column_detected df names) as D.
  rewrite H in D.
  inversion D as [pre post name Hn Hin Hpre | pre post c Hno Hc Hm Hpre |];
    subst.
  - exact Hin.
  - rewrite Hc. apply in_elt.
Qed.

Lemma In_index_of (name : str) (cols : list str) :
  In name cols -> exists i, index_of name cols = Some i.
Proof.
  induction cols as [|c cols IH]; simpl; [intros []|].
  destruct (PyStr.eqb name c) eqn:E; [intros _; exists O; reflexivity|].
  intros [-> | Hin]; [rewrite str_eqb_refl in E; discriminate|].
  destruct (IH Hin) as [i ->]. exists (S i). reflexivity.
Qed.

(** What [render] does to the table, by cases on the price column. *)
Lemma render_table_cases (ui : widgets) (df : DataFrame) :
  match price_column df with
  | Some (c :: col) =>
      exists i,
        index_of (c :: col) (columns df) = Some i /\
        fst (render ui df)
        = set_column df (c :: col)
            (to_numeric (map (fun r => nth i r VNone) (rows df)))
  | _ => fst (render ui df) = df
  end.
Proof.
  rewrite render_table.
  destruct (price_column df) as [[|c col]|] eqn:E; try reflexivity.
  destruct (In_index_of _ _ (detect_column_is_column _ _ E)) as [i Hi].
  exists i. split; [exact Hi|].
  apply filter_by_price_table. apply get_column_index. exact Hi.
Qed.

(** C3, in the form the code satisfies.  The table after the views is the
    table after the price view: the availability filter and the title
    search leave it as it is.  The price view keeps the header, the number
    of rows and every column but the detected price column; where that
    column is numeric already, the whole table is unchanged. *)
Theorem views_change_price_column_only (ui : widgets) (df : DataFrame) :
  fst (render ui df) = fst (fst (filter_by_price ui df (price_column df)))
  /\ columns (fst (render ui df)) = columns df
  /\ List.length (rows (fst (render ui df))) = List.length (rows df)
  /\ (forall name, price_column df <> Some name ->
        get_column (fst (render ui df)) name = get_column df name)
  /\ (forall col cells, price_column df = Some col ->
        get_column df col = Some cells -> numeric cells ->
        fst (render ui df) = df).
Proof.
  split; [apply render_table|].
  pose proof (render_table_cases ui df) as H.
  destruct (price_column df) as [[|c col]|] eqn:E.
  - rewrite H. repeat split; reflexivity.
  - destruct H as [i [Hi H]]. rewrite H.
    assert (Hlen : List.length
                     (to_numeric (map (fun r => nth i r VNone) (rows df)))
                   = List.length (rows df))
      by (rewrite to_numeric_length, length_map; reflexivity).
    split; [eapply set_column_columns; exact Hi|].
    split; [eapply set_column_rows_length; [exact Hi | exact Hlen]|].
    split.
    + intros name Hne. eapply get_column_set_other; [exact Hi | exact Hlen|].
      congruence.
    + intros col' cells Hc Hcells Hnum. injection Hc as <-.
      rewrite (get_column_index _ _ Hi) in Hcells. injection Hcells as <-.
      rewrite (to_numeric_numeric Hnum).
      apply set_column_get_column. apply get_column_index. exact Hi.
  - rewrite H. repeat split; reflexivity.
Qed.

Lemma views_change_price_column_only_witness :
  fst (render idle cleaned_table) = cleaned_table.
Proof.
  apply (proj2 (proj2 (proj2 (proj2
           (views_change_price_column_only idle cleaned_table))))
           (lit "price") [VInt 51; VInt 23]).
  - reflexivity.
  - reflexivity.
  - left; reflexivity.
Defined.

(** C3 does not hold for the price view: after one run of the script
    over a loaded table, no button pressed, the session table is another
    one: the price that is not a number has become NaN and the other
    price a float. *)
Lemma price_view_changes_session_table :
  fst (fst (main offline idle (Some odd_price_table)))
  = Some {| columns := [lit "title"; lit "price"; lit "availability"];
            rows := [[VStr (lit "A Light in the Attic");
                      VFloat (Float64.of_Z 51); VStr (lit "In stock")];
                     [VStr (lit "Sharp Objects");
                      VFloat Float64.nan; VStr (lit "In stock")]] |}
  /\ fst (fst (main offline idle (Some odd_price_table)))
     <> Some odd_price_table.
Proof. split; [vm_compute; reflexivity | vm_compute; discriminate]. Qed.

(** ** The price filter *)

Lemma dropna_rows (df : DataFrame) (col : str) (i : nat) :
  index_of col (columns df) = Some i ->
  dropna df col
  = {| columns := columns df;
       rows := filter (fun r => negb (isna (nth i r VNone))) (rows df) |}.
Proof.
  intros Hi. unfold dropna. rewrite (get_column_index _ _ Hi).
  rewrite select_map_filter. reflexivity.
Qed.

Lemma price_ceiling_rows (df : DataFrame) (col : str) (i : nat) (t : Z) :
  index_of col (columns df) = Some i ->
  price_ceiling df col t
  = {| columns := columns df;
       rows := filter (fun r => cell_leb_Z (nth i r VNone) t) (rows df) |}.
Proof.
  intros Hi. unfold price_ceiling. rewrite (get_column_index _ _ Hi).
  rewrite select_map_filter. reflexivity.
Qed.

Lemma cell_leb_Z_mono (c : cell) (t t' : Z) :
  t <= t' -> cell_leb_Z c t = true -> cell_leb_Z c t' = true.
Proof.
  intros Ht. destruct c as [s|z|f|]; simpl; try discriminate.
  - rewrite !Z.leb_le. lia.
  - destruct f as [s|s| |s m e]; simpl; try (intros H; exact H).
    + rewrite !Z.leb_le. lia.
    + destruct (0 <=? e).
      * rewrite !Z.leb_le. lia.
      * rewrite !Z.leb_le. intros H.
        assert (0 <= 2 ^ (- e)) by (apply Z.pow_nonneg; lia).
        assert (t * 2 ^ (- e) <= t' * 2 ^ (- e))
          by (apply Z.mul_le_mono_nonneg_r; assumption).
        lia.
Qed.




(** What "Filter by Price" displays is that filter at the value the slider
    answers with. *)
Lemma filter_by_price_shown (ui : widgets) (df df1 filtered dl : DataFrame)
  (col : str) (t : Z) :
  filter_by_price ui df (Some col) = (df1, PriceFiltered t filtered, dl) ->
  exists cells,
    get_column df col = Some cells
    /\ df1 = set_column df col (to_numeric cells)
    /\ filtered = price_ceiling (cleaned_view df col cells) col t.
Proof.
  unfold filter_by_price, cleaned_view. destruct col as [|c col]; [discriminate|].
  destruct (get_column df (c :: col)) as [cells|]; [|discriminate].
  destruct (slider_arguments _ _) as [[[mn mx] d]|]; [|discriminate].
  destruct (slider ui mn mx d); [|discriminate].
  intros H. injection H as <- <- <- _. exists cells. repeat split.
Qed.

(** ** The slider *)

Lemma fold_pick_In (p : cell -> cell -> bool) (l : list cell) (c : cell) :
  In (fold_left (fun m x => if p x m then x else m) l c) (c :: l).
Proof.
  revert c. induction l as [|x l IH]; intros c; simpl; [auto|].
  destruct (IH (if p x c then x else c)) as [H | H].
  - destruct (p x c); rewrite <- H; auto.
  - auto.
Qed.

Lemma col_min_In (cells : list cell) (m : cell) :
  col_min cells = Some m -> In m cells.
Proof.
  destruct cells as [|c cells]; simpl; [discriminate|].
  intros H; injection H as <-.
  apply (fold_pick_In (fun x m => cell_ltb x m)).
Qed.

Lemma col_max_In (cells : list cell) (m : cell) :
  col_max cells = Some m -> In m cells.
Proof.
  destruct cells as [|c cells]; simpl; [discriminate|].
  intros H; injection H as <-.
  apply (fold_pick_In (fun x m => cell_ltb m x)).
Qed.

(** C10, in the form the code satisfies.  When the table has a price that
    is a number, and every such price is finite with an integer part above
    50, the slider is built with the default 50, which is strictly below
    its minimum bound (and its maximum bound). *)
Theorem slider_default_below_minimum (df : DataFrame) (col : str)
  (cells prices : list cell) :
  get_column df col = Some cells ->
  get_column (cleaned_view df col cells) col = Some prices ->
  prices <> [] ->
  (forall c, In c prices -> exists z, int_of (Some c) = Some z /\ 50 < z) ->
  exists min_price max_price,
    slider_arguments (cleaned_view df col cells) col
    = Some (min_price, max_price, 50)
    /\ 50 < min_price /\ 50 < max_price.
Proof.
  intros _ Hcol Hne Hall. unfold slider_arguments. rewrite Hcol.
  destruct (col_min prices) as [m|] eqn:Em;
    [|destruct prices; [congruence | discriminate]].
  destruct (col_max prices) as [M|] eqn:EM;
    [|destruct prices; [congruence | discriminate]].
  destruct (Hall m (col_min_In _ Em)) as [zm [Hm Hzm]].
  destruct (Hall M (col_max_In _ EM)) as [zM [HM HzM]].
  rewrite Hm, HM. exists zm, zM.
  rewrite Z.min_r by lia. repeat split; assumption.
Qed.

Lemma slider_default_below_minimum_witness :
  exists min_price max_price,
    slider_arguments
      (cleaned_view dear_table (lit "price") [VInt 51; VInt 60])
      (lit "price")
    = Some (min_price, max_price, 50)
    /\ 50 < min_price /\ 50 < max_price.
Proof.
  apply (@slider_default_below_minimum dear_table (lit "price")
           [VInt 51; VInt 60] [VInt 51; VInt 60]).
  - reflexivity.
  - reflexivity.
  - discriminate.
  - intros c [<- | [<- | []]]; eexists; (split; [reflexivity | lia]).
Defined.

(** C10 does not hold as stated: the only price is 50.5, which exceeds
    50; the slider is built with the bounds 50 and 50 and the default 50,
    which is not below the minimum bound. *)
Lemma slider_default_at_minimum :
  let df_clean :=
    cleaned_view half_price_table (lit "price")
      [VFloat (Float64.of_decimal false 505 (-1))] in
  get_column df_clean (lit "price")
  = Some [VFloat (Float64.of_decimal false 505 (-1))]
  /\ cell_leb_Z (VFloat (Float64.of_decimal false 505 (-1))) 50 = false
  /\ slider_arguments df_clean (lit "price") = Some (50, 50, 50)
  /\ ~ 50 < 50.
Proof.
  repeat split; try (vm_compute; reflexivity). lia.
Qed.

(** ** The availability filter and the title search *)

Lemma compile_plain (pat : str) :
  plain pat = true -> Re.compile false pat = Some (map Re.Lit pat).
Proof.
  unfold plain. induction pat as [|c pat IH]; simpl; [reflexivity|].
  rewrite andb_true_iff, negb_true_iff. intros [Hc Hp].
  rewrite (IH Hp).
  destruct (c =? 46) eqn:E.
  - apply Z.eqb_eq in E. subst. discriminate.
  - rewrite Hc. reflexivity.
Qed.

Lemma match_here_literal (pat s : str) :
  Re.match_here (map Re.Lit pat) s = PyStr.startswith pat s.
Proof.
  revert s. induction pat as [|x pat IH]; intros [|c s]; simpl;
    try reflexivity.
  rewrite IH. reflexivity.
Qed.

Lemma search_literal (pat s : str) :
  Re.search (map Re.Lit pat) s = PyStr.contains pat s.
Proof.
  induction s as [|c s IH].
  - simpl. rewrite match_here_literal. reflexivity.
  - change (Re.search (map Re.Lit pat) (c :: s))
      with (Re.match_here (map Re.Lit pat) (c :: s)
            || Re.search (map Re.Lit pat) s).
    change (PyStr.contains pat (c :: s))
      with (PyStr.startswith pat (c :: s) || PyStr.contains pat s).
    rewrite match_here_literal, IH. reflexivity.
Qed.

(** The pattern of a Latin-1 term without special characters, compiled
    with [re.IGNORECASE]. *)
Lemma compile_plain_ignorecase (pat : str) :
  plain pat = true -> latin1 pat = true ->
  Re.compile true pat
  = Some (map (fun c => Re.LitIgnoreCase (Re.fold c)) pat).
Proof.
  unfold plain, latin1. induction pat as [|c pat IH]; simpl; [reflexivity|].
  rewrite !andb_true_iff, negb_true_iff. intros [Hc Hp] [Hl Hq].
  rewrite (IH Hp Hq).
  destruct (c =? 46) eqn:E.
  - apply Z.eqb_eq in E. subst. discriminate.
  - rewrite Hc, Hl. reflexivity.
Qed.

Lemma match_here_ignorecase (pat s : str) :
  Re.match_here (map (fun c => Re.LitIgnoreCase (Re.fold c)) pat) s
  = PyStr.startswith (map Re.fold pat) (map Re.fold s).
Proof.
  revert s. induction pat as [|x pat IH]; intros [|c s]; simpl;
    try reflexivity.
  rewrite IH. reflexivity.
Qed.

Lemma search_ignorecase (pat s : str) :
  Re.search (map (fun c => Re.LitIgnoreCase (Re.fold c)) pat) s
  = PyStr.contains (map Re.fold pat) (map Re.fold s).
Proof.
  induction s as [|c s IH].
  - simpl. rewrite match_here_ignorecase. reflexivity.
  - change (Re.search (map (fun c => Re.LitIgnoreCase (Re.fold c)) pat)
                      (c :: s))
      with (Re.match_here (map (fun c => Re.LitIgnoreCase (Re.fold c)) pat)
                          (c :: s)
            || Re.search (map (fun c => Re.LitIgnoreCase (Re.fold c)) pat) s).
    change (PyStr.contains (map Re.fold pat) (map Re.fold (c :: s)))
      with (PyStr.startswith (map Re.fold pat) (map Re.fold (c :: s))
            || PyStr.contains (map Re.fold pat) (map Re.fold s)).
    rewrite match_here_ignorecase, IH. reflexivity.
Qed.

(** On Latin-1 text, the comparison of [re.IGNORECASE] is that of the
    lowered characters. *)
Lemma fold_latin1 (s : str) :
  latin1 s = true -> map Re.fold s = PyStr.lower s.
Proof.
  unfold latin1, PyStr.lower. induction s as [|c s IH]; simpl;
    [reflexivity|].
  rewrite andb_true_iff. intros [Hc Hs].
  rewrite (IH Hs). unfold Re.fold. rewrite Hc. reflexivity.
Qed.

(** The text of a missing value does not mention a stock. *)
Lemma missing_not_in_stock (c : cell) :
  isna c = true ->
  PyStr.contains (lit "in stock") (PyStr.lower (astype_str c)) = false.
Proof.
  destruct c as [s|z|f|]; simpl; try discriminate.
  - destruct f; simpl; try discriminate. intros _. vm_compute. reflexivity.
  - intros _. vm_compute. reflexivity.
Qed.

Lemma books_in_stock_rows (df : DataFrame) (c : Z) (col : str) (i : nat) :
  index_of (c :: col) (columns df) = Some i ->
  books_in_stock df (Some (c :: col))
  = InStock
      {| columns := columns df;
         rows := filter (fun r => PyStr.contains (lit "in stock")
                                    (PyStr.lower (astype_str (nth i r VNone))))
                        (rows df) |}.
Proof.
  intros Hi. unfold books_in_stock. rewrite (get_column_index _ _ Hi).
  rewrite (@compile_plain (lit "in stock")) by reflexivity.
  do 2 f_equal.
  rewrite (select_map_filter (fun r => nth i r VNone)
             (fun c => Re.search (map Re.Lit (lit "in stock"))
                         (PyStr.lower (astype_str c)))).
  apply filter_ext. intros r. apply search_literal.
Qed.

(** C7.  Where the table has the availability column, the filter shows the
    rows, in their order, whose availability, made text and lowered,
    contains "in stock", and no other; a row without availability is not
    among them; a row with "In stock (19 available)" is, a row with "Out
    of stock" is not. *)
Theorem books_in_stock_exact (df : DataFrame) (c : Z) (col : str) (i : nat) :
  index_of (c :: col) (columns df) = Some i ->
  exists in_stock_df,
    books_in_stock df (Some (c :: col)) = InStock in_stock_df
    /\ columns in_stock_df = columns df
    /\ rows in_stock_df
       = filter (fun r => PyStr.contains (lit "in stock")
                            (PyStr.lower (astype_str (nth i r VNone))))
                (rows df)
    /\ (forall r, In r (rows in_stock_df) <->
                  In r (rows df) /\
                  substring (lit "in stock")
                            (PyStr.lower (astype_str (nth i r VNone))))
    /\ (forall r, isna (nth i r VNone) = true -> ~ In r (rows in_stock_df))
    /\ (forall r, In r (rows df) ->
                  nth i r VNone = VStr (lit "In stock (19 available)") ->
                  In r (rows in_stock_df))
    /\ (forall r, nth i r VNone = VStr (lit "Out of stock") ->
                  ~ In r (rows in_stock_df)).
Proof.
  intros Hi. eexists. split; [apply books_in_stock_rows; exact Hi|].
  cbn [columns rows]. split; [reflexivity|]. split; [reflexivity|].
  split; [|split; [|split]].
  - intros r. rewrite filter_In, contains_spec. reflexivity.
  - intros r Hna Hin. apply filter_In in Hin. destruct Hin as [_ H].
    rewrite (missing_not_in_stock _ Hna) in H. discriminate.
  - intros r Hin Hr. apply filter_In. split; [exact Hin|].
    rewrite Hr. vm_compute. reflexivity.
  - intros r Hr Hin. apply filter_In in Hin. destruct Hin as [_ H].
    rewrite Hr in H. vm_compute in H. discriminate.
Qed.

Lemma books_in_stock_exact_witness :
  exists in_stock_df,
    books_in_stock stock_table (Some (lit "availability")) = InStock in_stock_df
    /\ rows in_stock_df
       = [[VStr (lit "A Light in the Attic"); VInt 51;
           VStr (lit "In stock (19 available)")]].
Proof.
  destruct (@books_in_stock_exact stock_table 97 (lit "vailability") 2)
    as [shown [H1 [_ [H2 _]]]].
  - reflexivity.
  - exists shown. split; [exact H1 | rewrite H2; reflexivity].
Defined.






(** C8 does not exclude the rows without a title either, where
    [astype(str)] makes text of a missing value (pandas before 3.0): the
    missing title reads nan, and the term nan shows the row. *)
Lemma search_shows_missing_title :
  has_value 0 [VFloat Float64.nan; VInt 23; VStr (lit "In stock")] = false
  /\ search_books (searching (lit "nan")) untitled_table (Some (lit "title"))
     = SearchResults
         {| columns := columns untitled_table;
            rows := [[VFloat Float64.nan; VInt 23; VStr (lit "In stock")]] |}.
Proof. split; vm_compute; reflexivity. Qed.

(** Beyond Latin-1 the comparison of [re.IGNORECASE] is not that of the
    lowered texts: the long s matches the s of the term, so the term lost
    shows a title whose lowered text does not contain it. *)
Lemma search_matches_long_s :
  search_books (searching (lit "lost")) long_s_table (Some (lit "title"))
  = SearchResults long_s_table
  /\ latin1 long_s_title = false
  /\ PyStr.contains (PyStr.lower (lit "lost")) (PyStr.lower long_s_title)
     = false.
Proof. repeat split; vm_compute; reflexivity. Qed.

(** * Further properties of the code *)

(** ** The scraper *)

Lemma lstrip_head (s : str) :
  match PyStr.lstrip s with
  | c :: _ => PyStr.isspace c = false
  | [] => True
  end.
Proof.
  induction s as [|c s IH]; simpl; [exact I|].
  destruct (PyStr.isspace c) eqn:E; [exact IH | exact E].
Qed.

Lemma lstrip_keeps_last (l : str) (c : Z) :
  PyStr.isspace c = false ->
  exists l', PyStr.lstrip (l ++ [c]) = l' ++ [c].
Proof.
  intros Hc. induction l as [|x l IH]; simpl.
  - rewrite Hc. exists []. reflexivity.
  - destruct (PyStr.isspace x); [exact IH|].
    exists (x :: l). reflexivity.
Qed.

Lemma strip_trimmed (s : str) : trimmed (PyStr.strip s).
Proof.
  unfold trimmed, PyStr.strip, PyStr.rstrip. rewrite rev_involutive. split.
  - pose proof (lstrip_head s) as H.
    destruct (PyStr.lstrip s) as [|c t]; [exact I|].
    simpl rev. destruct (@lstrip_keeps_last (rev t) c H) as [l' ->].
    rewrite rev_app_distr. simpl. exact H.
  - apply lstrip_head.
Qed.

Lemma record_of_trimmed (a : article) (r : BookRecord) :
  record_of a = Some r -> trimmed (availability r).
Proof.
  unfold record_of.
  destruct (title_attr a), (price_text a), (availability_text a);
    try discriminate.
  intros H; injection H as <-. apply strip_trimmed.
Qed.

Lemma records_before_failure_In (books : list article) (r : BookRecord) :
  In r (records_before_failure books) ->
  exists a, In a books /\ record_of a = Some r.
Proof.
  induction books as [|a books IH]; simpl; [intros []|].
  destruct (record_of a) as [r'|] eqn:E; [|intros []].
  intros [<- | H].
  - exists a. auto.
  - destruct (IH H) as [b [Hb Hr]]. exists b. auto.
Qed.

Lemma scrape_records (web : Z -> response) :
  fst (scrape_books_data web)
  = List.concat (map (fun p => page_records (web p)) pages).
Proof. unfold scrape_books_data. rewrite scrape_pages_spec. reflexivity. Qed.

Lemma scrape_diagnostics (web : Z -> response) :
  snd (scrape_books_data web)
  = map ErrorScrapingPage (filter (fun p => page_failed (web p)) pages).
Proof. unfold scrape_books_data. rewrite scrape_pages_spec. reflexivity. Qed.

(** X1.  Every record the scraper returns was read from an entry of the
    listing of one of the pages 1 to 5, with the title and the price as
    they stand there, and its availability is that entry's text without
    the white space around it: it neither begins nor ends with white
    space. *)
Theorem scraped_records_come_from_entries (web : Z -> response)
  (r : BookRecord) :
  In r (fst (scrape_books_data web)) ->
  exists page books a,
    In page pages /\ web page = Document (Some books) /\ In a books
    /\ title_attr a = Some (Book_Name r)
    /\ price_text a = Some (price r)
    /\ option_map PyStr.strip (availability_text a) = Some (availability r)
    /\ trimmed (availability r).
Proof.
  rewrite scrape_records. intros H.
  apply in_concat in H. destruct H as [l [Hl Hr]].
  apply in_map_iff in Hl. destruct Hl as [page [<- Hpage]].
  unfold page_records in Hr.
  destruct (web page) as [|[books|]] eqn:E; try destruct Hr.
  destruct (records_before_failure_In _ _ Hr) as [a [Ha Hrec]].
  exists page, books, a.
  pose proof (record_of_trimmed _ Hrec) as Ht.
  unfold record_of in Hrec.
  destruct (title_attr a), (price_text a), (availability_text a);
    try discriminate.
  injection Hrec as <-. simpl. repeat split; auto; apply Ht.
Qed.

Lemma scraped_records_come_from_entries_witness :
  exists page books a,
    In page pages /\ patchy_web page = Document (Some books) /\ In a books
    /\ title_attr a = Some (lit "Sapiens")
    /\ price_text a = Some (artifact ++ lit "54.23")
    /\ option_map PyStr.strip (availability_text a) = Some (lit "In stock")
    /\ trimmed (lit "In stock").
Proof.
  apply (@scraped_records_come_from_entries patchy_web
           (book (lit "Sapiens") (artifact ++ lit "54.23") (lit "In stock"))).
  vm_compute. auto 10.
Defined.

Lemma filter_nil_forall {A : Type} (f : A -> bool) (l : list A) :
  filter f l = [] -> forall x, In x l -> f x = false.
Proof.
  induction l as [|y l IH]; simpl; [intros _ ? []|].
  destruct (f y) eqn:E; [discriminate|].
  intros H x [<- | Hx]; [exact E | apply IH; assumption].
Qed.

Lemma page_records_entries (r : response) :
  page_failed r = false -> map Some (page_records r) = page_entries r.
Proof.
  destruct r as [|[books|]]; simpl; try discriminate; try reflexivity.
  apply page_records_complete.
Qed.

(** X2.  When the scraper reports no diagnostic, nothing was dropped: its
    records are the records of all the entries of the pages 1 to 5, in
    page order and in the order of the entries. *)
Theorem scrape_without_diagnostic_is_complete (web : Z -> response) :
  snd (scrape_books_data web) = [] ->
  map Some (fst (scrape_books_data web))
  = List.concat (map (fun p => page_entries (web p)) pages).
Proof.
  rewrite scrape_diagnostics, scrape_records. intros H.
  apply map_eq_nil in H.
  pose proof (filter_nil_forall _ _ H) as Hok. clear H.
  induction pages as [|p ps IH]; [reflexivity|].
  cbn [map List.concat]. rewrite map_app.
  rewrite page_records_entries by (apply Hok; simpl; auto).
  rewrite IH by (intros x Hx; apply Hok; simpl; auto). reflexivity.
Qed.

Lemma scrape_without_diagnostic_is_complete_witness :
  map Some (fst (scrape_books_data quiet_web))
  = [Some (book (lit "Sapiens") (artifact ++ lit "54.23") (lit "In stock"))].
Proof.
  apply (@scrape_without_diagnostic_is_complete quiet_web).
  reflexivity.
Defined.

(** X3.  The scraper asks for the pages 1 to 5 and for no other: two webs
    that agree on these five pages give the same records and the same
    diagnostics. *)
Theorem scrape_reads_five_pages (web web' : Z -> response) :
  (forall p, 1 <= p <= 5 -> web p = web' p) ->
  scrape_books_data web = scrape_books_data web'.
Proof.
  intros H.
  assert (Hp : forall p, In p pages -> web p = web' p).
  { intros p Hin. apply H. unfold pages in Hin. simpl in Hin.
    repeat (destruct Hin as [<- | Hin]; [lia|]). destruct Hin. }
  apply injective_projections.
  - rewrite !scrape_records. f_equal. apply map_ext_in.
    intros p Hin. rewrite (Hp p Hin). reflexivity.
  - rewrite !scrape_diagnostics. f_equal. apply filter_ext_in.
    intros p Hin. rewrite (Hp p Hin). reflexivity.
Qed.

Lemma scrape_reads_five_pages_witness :
  scrape_books_data patchy_web
  = scrape_books_data (fun p => if p =? 6 then RequestFailed else patchy_web p).
Proof.
  apply scrape_reads_five_pages. intros p Hp.
  destruct (p =? 6) eqn:E; [apply Z.eqb_eq in E; lia | reflexivity].
Defined.

(** ** The cleaner *)

Lemma try_map_length {A B : Type} (f : A -> option B) (l : list A)
  (l' : list B) :
  try_map f l = Some l' -> List.length l' = List.length l.
Proof.
  revert l'. induction l as [|x l IH]; simpl; intros l' H.
  - injection H as <-. reflexivity.
  - destruct (f x) as [y|]; [|discriminate].
    destruct (try_map f l) as [t|]; [|discriminate].
    injection H as <-. simpl. rewrite (IH t eq_refl). reflexivity.
Qed.

Lemma try_map_inv {A B : Type} (f : A -> option B) (l : list A)
  (l' : list B) :
  try_map f l = Some l' -> Forall2 (fun x y => f x = Some y) l l'.
Proof.
  revert l'. induction l as [|x l IH]; simpl; intros l' H.
  - injection H as <-. constructor.
  - destruct (f x) as [y|] eqn:E; [|discriminate].
    destruct (try_map f l) as [t|]; [|discriminate].
    injection H as <-. constructor; [exact E | apply IH; reflexivity].
Qed.

(** An assignment to a column that is there, of as many values as rows,
    keeps the header, the number of rows and the other columns. *)
Lemma set_column_shape (df : DataFrame) (name : str) (i : nat)
  (values : list cell) :
  index_of name (columns df) = Some i ->
  List.length values = List.length (rows df) ->
  columns (set_column df name values) = columns df
  /\ List.length (rows (set_column df name values)) = List.length (rows df)
  /\ forall other, other <> name ->
       get_column (set_column df name values) other = get_column df other.
Proof.
  intros Hi Hlen. split; [eapply set_column_columns; exact Hi|].
  split; [eapply set_column_rows_length; eassumption|].
  intros other Hne. eapply get_column_set_other; eassumption.
Qed.

(** X4.  Whatever the outcome of the cleaning, the table that comes back
    has the header and the number of rows of the table given, and every
    column other than the price column is as it was. *)
Theorem clean_data_keeps_shape (df : DataFrame) :
  columns (fst (clean_data df)) = columns df
  /\ List.length (rows (fst (clean_data df))) = List.length (rows df)
  /\ forall name, name <> lit "price" ->
       get_column (fst (clean_data df)) name = get_column df name.
Proof.
  unfold clean_data.
  destruct (get_column df (lit "price")) as [col|] eqn:Hcol;
    [|repeat split; reflexivity].
  destruct (try_map astype_float_cell (map str_replace_cell col))
    as [floats|] eqn:Hf; [|repeat split; reflexivity].
  assert (Hi : exists i, index_of (lit "price") (columns df) = Some i).
  { unfold get_column in Hcol.
    destruct (index_of (lit "price") (columns df)) as [i|];
      [eauto | discriminate]. }
  destruct Hi as [i Hi].
  assert (Hlen : List.length (map VFloat floats) = List.length (rows df)).
  { rewrite length_map, (try_map_length _ _ Hf), length_map.
    rewrite (get_column_index _ _ Hi) in Hcol. injection Hcol as <-.
    apply length_map. }
  destruct (@set_column_shape df (lit "price") i (map VFloat floats) Hi Hlen)
    as [H1 [H2 H3]].
  destruct (try_map astype_int_cell floats) as [ints|] eqn:Hz;
    cbn [fst]; [|repeat split; assumption].
  assert (Hi1 : index_of (lit "price")
                  (columns (set_column df (lit "price") (map VFloat floats)))
                = Some i) by (rewrite H1; exact Hi).
  assert (Hlen1 : List.length (map VInt ints)
                  = List.length
                      (rows (set_column df (lit "price") (map VFloat floats)))).
  { rewrite H2, <- Hlen, !length_map. apply (try_map_length _ _ Hz). }
  destruct (@set_column_shape _ (lit "price") i (map VInt ints) Hi1 Hlen1)
    as [K1 [K2 K3]].
  split; [congruence|]. split; [congruence|].
  intros name Hne. rewrite (K3 name Hne). apply H3. exact Hne.
Qed.

Lemma Exists_try_map_fails {A B : Type} (f : A -> option B) (l : list A) :
  Exists (fun x => f x = None) l -> try_map f l = None.
Proof.
  intros H. apply Exists_exists in H. destruct H as [x [Hin Hx]].
  eapply try_map_fails; eassumption.
Qed.

Lemma scraped_floats (data : list BookRecord) (floats : list float) :
  Forall2 (fun b f => price_float (price b) = Some f) data floats ->
  try_map astype_float_cell
    (map str_replace_cell (map (fun b => VStr (price b)) data))
  = Some floats.
Proof.
  intros H. apply try_map_Forall2.
  induction H as [|b f data floats Hb _ IH]; simpl; constructor;
    [exact Hb | exact IH].
Qed.

(** X5.  When every price text of a scraped table reads as a float but one
    of the floats is NaN or infinite, the conversion to integers raises
    after the prices have been stored as floats: the table comes back
    with all its prices as floats, none truncated, and the error is
    reported. *)
Theorem clean_data_leaves_floats (data : list BookRecord)
  (floats : list float) :
  data <> [] ->
  Forall2 (fun b f => price_float (price b) = Some f) data floats ->
  Exists (fun f => astype_int_cell f = None) floats ->
  clean_data (DataFrame_of data)
  = (with_prices data (map VFloat floats), [ErrorCleaningData]).
Proof.
  intros Hne Hf Hz.
  assert (Hlen : List.length floats = List.length data)
    by (symmetry; eapply Forall2_length; exact Hf).
  rewrite DataFrame_of_with_prices by exact Hne.
  unfold clean_data.
  rewrite get_column_with_prices by (rewrite length_map; reflexivity).
  rewrite (scraped_floats Hf), (Exists_try_map_fails _ Hz).
  rewrite set_column_with_prices
    by (rewrite length_map; (reflexivity || exact Hlen)).
  reflexivity.
Qed.

Lemma clean_data_leaves_floats_witness :
  clean_data (DataFrame_of nan_books)
  = (with_prices nan_books
       [VFloat (Float64.of_decimal false 5177 (-2)); VFloat Float64.nan],
     [ErrorCleaningData]).
Proof.
  apply (@clean_data_leaves_floats nan_books
           [Float64.of_decimal false 5177 (-2); Float64.nan]).
  - discriminate.
  - repeat constructor.
  - apply Exists_cons_tl. apply Exists_cons_hd. reflexivity.
Defined.

Lemma cleaned_price_of_cells (s : str) (f : float) (z : Z) :
  astype_float_cell (str_replace_cell (VStr s)) = Some f ->
  astype_int_cell f = Some z ->
  cleaned_price s = Some z.
Proof.
  unfold cleaned_price. cbn [astype_float_cell str_replace_cell].
  intros -> H. exact H.
Qed.

(** X6.  The cleaner of a scraped table reports nothing exactly when the
    table has a row and every price text cleans (reads as a finite float
    once the artifact is removed); with no row at all, the price column
    is missing and the error is reported. *)
Theorem clean_data_silent_iff (data : list BookRecord) :
  snd (clean_data (DataFrame_of data)) = []
  <-> data <> [] /\ Forall (fun b => cleaned_price (price b) <> None) data.
Proof.
  split.
  - destruct data as [|b0 data0];
      [intros H; vm_compute in H; discriminate H|].
    set (data := b0 :: data0).
    assert (Hne : data <> []) by discriminate.
    rewrite DataFrame_of_with_prices by exact Hne.
    unfold clean_data.
    rewrite get_column_with_prices by (rewrite length_map; reflexivity).
    destruct (try_map astype_float_cell _) as [floats|] eqn:Hf;
      [|discriminate].
    destruct (try_map astype_int_cell floats) as [ints|] eqn:Hz;
      [|discriminate].
    intros _. split; [exact Hne|].
    apply try_map_inv in Hf. apply try_map_inv in Hz.
    clear Hne. revert floats ints Hf Hz. generalize data. clear.
    induction data as [|b data IH]; intros floats ints Hf Hz;
      [constructor|].
    inversion Hf as [|c f cs fs Hc Hcs]; subst.
    inversion Hz as [|f' z fs' zs Hfz Hfs]; subst.
    constructor; [|eapply IH; eassumption].
    rewrite (cleaned_price_of_cells _ Hc Hfz). discriminate.
  - intros [Hne Hall]. destruct (Forall_cleaned Hall) as [ints Hints].
    rewrite (clean_data_success Hne Hints). reflexivity.
Qed.

(** ** Column detection *)

Lemma substring_refl (s : str) : substring s s.
Proof. exists [], []. rewrite app_nil_r. reflexivity. Qed.

(** X7.  The detector finds no column exactly when no column name
    contains a candidate once both are lowered: an exact match is a
    match of that kind too, so nothing else can make it succeed. *)
Theorem detect_column_none_iff (df : DataFrame) (names : list str) :
  detect_column df names = None
  <-> forall col, In col (columns df) -> ~ names_match names col.
Proof.
  pose proof (detect_column_detected df names) as D. split.
  - intros E. rewrite E in D.
    inversion D as [| |Hno Hnm]. exact Hnm.
  - intros H.
    inversion D as [pre post name Hn Hin Hpre E
                   |pre post c Hno Hc Hm Hpre E
                   |Hno Hnm E]; try reflexivity; exfalso.
    + apply (H name Hin). exists name. split.
      * rewrite Hn. apply in_elt.
      * apply substring_refl.
    + apply (H c); [rewrite Hc; apply in_elt | exact Hm].
Qed.

(** X8.  A column that the detector returns can be read: the table has a
    column of that name, with one cell for each row, so the lookups that
    follow a detection do not raise. *)
Theorem detected_column_can_be_read (df : DataFrame) (names : list str)
  (col : str) :
  detect_column df names = Some col ->
  exists cells,
    get_column df col = Some cells
    /\ List.length cells = List.length (rows df).
Proof.
  intros H.
  destruct (In_index_of _ _ (detect_column_is_column _ _ H)) as [i Hi].
  exists (map (fun r => nth i r VNone) (rows df)).
  split; [apply get_column_index; exact Hi | apply length_map].
Qed.

Lemma detected_column_can_be_read_witness :
  exists cells,
    get_column stock_table (lit "availability") = Some cells
    /\ List.length cells = List.length (rows stock_table).
Proof.
  apply (@detected_column_can_be_read stock_table
           [lit "availability"; lit "Availability"; lit "stock";
            lit "instock"]).
  reflexivity.
Defined.

Lemma detect_exact_ext (df df' : DataFrame) (names : list str) :
  columns df = columns df' -> detect_exact df names = detect_exact df' names.
Proof.
  intros H. induction names as [|n names IH]; simpl; [reflexivity|].
  unfold has_column. rewrite H, IH. reflexivity.
Qed.

(** The detector looks at the header only. *)
Lemma detect_column_ext (df df' : DataFrame) (names : list str) :
  columns df = columns df' -> detect_column df names = detect_column df' names.
Proof.
  intros H. unfold detect_column.
  rewrite (detect_exact_ext _ _ names H), H. reflexivity.
Qed.

Lemma clean_data_columns (df : DataFrame) :
  columns (fst (clean_data df)) = columns df.
Proof.
  unfold clean_data.
  destruct (get_column df (lit "price")) as [col|] eqn:Hcol; [|reflexivity].
  destruct (try_map astype_float_cell _) as [floats|]; [|reflexivity].
  unfold get_column in Hcol.
  destruct (index_of (lit "price") (columns df)) as [i|] eqn:Hi;
    [|discriminate].
  assert (H1 : columns (set_column df (lit "price") (map VFloat floats))
               = columns df) by (eapply set_column_columns; exact Hi).
  destruct (try_map astype_int_cell floats) as [ints|]; cbn [fst];
    [|exact H1].
  transitivity (columns (set_column df (lit "price") (map VFloat floats)));
    [|exact H1].
  eapply set_column_columns. rewrite H1. exact Hi.
Qed.

(** X9.  The views find the columns of a scraped table, cleaned or not:
    for every scrape that acquired a record, the price column is "price",
    the availability column is "availability" and the title column is
    "Book_Name", each by an exact match. *)
Theorem scraped_columns_are_detected (data : list BookRecord) :
  data <> [] ->
  price_column (fst (clean_data (DataFrame_of data))) = Some (lit "price")
  /\ availability_column (fst (clean_data (DataFrame_of data)))
     = Some (lit "availability")
  /\ title_column (fst (clean_data (DataFrame_of data)))
     = Some (lit "Book_Name").
Proof.
  intros Hne.
  assert (H : columns (fst (clean_data (DataFrame_of data)))
              = columns (with_prices [] [])).
  { rewrite clean_data_columns. destruct data; [congruence | reflexivity]. }
  unfold price_column, availability_column, title_column.
  rewrite !(detect_column_ext _ _ _ H).
  repeat split; reflexivity.
Qed.

Lemma scraped_columns_are_detected_witness :
  price_column (fst (clean_data (DataFrame_of pound_books)))
  = Some (lit "price").
Proof.
  apply (@scraped_columns_are_detected pound_books). discriminate.
Defined.

(** ** The price view and the session table *)

Lemma nth_set_nth_same (i : nat) (v : cell) (r : list cell) :
  (i < List.length r)%nat -> nth i (set_nth i v r) VNone = v.
Proof.
  revert r. induction i as [|i IH]; intros [|c r] H; simpl in *;
    try lia; [reflexivity|].
  apply IH. lia.
Qed.

Lemma index_of_lt (name : str) (cols : list str) (i : nat) :
  index_of name cols = Some i -> (i < List.length cols)%nat.
Proof.
  intros H. apply index_of_nth_error in H.
  apply nth_error_Some. congruence.
Qed.

(** In a rectangular table, a column just assigned reads back as the
    values assigned. *)
Lemma get_set_column (df : DataFrame) (name : str) (i : nat)
  (values : list cell) :
  index_of name (columns df) = Some i ->
  rectangular df ->
  List.length values = List.length (rows df) ->
  get_column (set_column df name values) name = Some values.
Proof.
  intros Hi Hrect Hlen. unfold get_column, set_column. rewrite Hi.
  cbn [columns rows]. rewrite Hi. f_equal.
  pose proof (index_of_lt _ _ Hi) as Hlt.
  unfold rectangular in Hrect. revert values Hlen Hrect.
  induction (rows df) as [|r rs IH]; intros [|v values] Hlen Hrect;
    simpl in *; try discriminate; [reflexivity|].
  inversion Hrect as [|? ? Hr Hrs]; subst.
  rewrite nth_set_nth_same by lia. rewrite IH by (congruence || assumption).
  reflexivity.
Qed.

Lemma to_numeric_is_numeric (cells : list cell) : numeric (to_numeric cells).
Proof.
  unfold numeric, to_numeric.
  destruct (forallb is_int (map to_numeric_cell cells)) eqn:E; [left; exact E|].
  right. clear E. induction cells as [|c cells IH]; simpl; [reflexivity|].
  rewrite IH, andb_true_r.
  destruct c as [s|z|f|]; simpl; try reflexivity.
  destruct (Parse.pd_number s) as [[z|f]|]; reflexivity.
Qed.

Lemma names_match_nonempty (names : list str) :
  (forall n, In n names -> n <> []) -> ~ names_match names [].
Proof.
  intros Hne [n [Hin [before [after H]]]]. apply (Hne n Hin).
  simpl in H. symmetry in H. apply app_eq_nil in H. destruct H as [_ H].
  apply app_eq_nil in H. destruct H as [H _].
  destruct n; [reflexivity | discriminate].
Qed.

Lemma detect_column_nonempty (df : DataFrame) (names : list str) :
  (forall n, In n names -> n <> []) -> detect_column df names <> Some [].
Proof.
  intros Hne E. pose proof (detect_column_detected df names) as D.
  rewrite E in D.
  inversion D as [pre post name Hn Hin Hpre | pre post c Hno Hc Hm Hpre |];
    subst.
  - apply (Hne []); [apply in_elt | reflexivity].
  - exact (names_match_nonempty Hne Hm).
Qed.

Lemma price_column_nonempty (df : DataFrame) : price_column df <> Some [].
Proof.
  apply detect_column_nonempty.
  intros n [<- | [<- | [<- | []]]]; discriminate.
Qed.

(** X10.  After the views have run over a rectangular table, its detected
    price column is numeric: it holds integers only, or floats only (NaN
    where the price was not a number), one for each row. *)
Theorem price_column_is_numeric_after_render (ui : widgets)
  (df : DataFrame) (col : str) :
  rectangular df ->
  price_column df = Some col ->
  exists cells,
    get_column (fst (render ui df)) col = Some cells
    /\ numeric cells
    /\ List.length cells = List.length (rows df).
Proof.
  intros Hrect E. pose proof (render_table_cases ui df) as H.
  rewrite E in H. destruct col as [|c col];
    [exfalso; exact (@price_column_nonempty df E)|].
  destruct H as [i [Hi H]]. rewrite H.
  exists (to_numeric (map (fun r => nth i r VNone) (rows df))).
  assert (Hlen : List.length
                   (to_numeric (map (fun r => nth i r VNone) (rows df)))
                 = List.length (rows df))
    by (rewrite to_numeric_length, length_map; reflexivity).
  split; [eapply get_set_column; eassumption|].
  split; [apply to_numeric_is_numeric | exact Hlen].
Qed.

Lemma price_column_is_numeric_after_render_witness :
  exists cells,
    get_column (fst (render idle odd_price_table)) (lit "price") = Some cells
    /\ numeric cells
    /\ List.length cells = List.length (rows odd_price_table).
Proof.
  apply (@price_column_is_numeric_after_render idle odd_price_table
           (lit "price")).
  - repeat constructor.
  - reflexivity.
Defined.

(** X11.  The change that the views make to a rectangular session table is
    made once: a second run of the views, whatever the widgets, leaves the
    table as the first run left it. *)
Theorem render_twice (ui ui' : widgets) (df : DataFrame) :
  rectangular df ->
  fst (render ui' (fst (render ui df))) = fst (render ui df).
Proof.
  intros Hrect.
  pose proof (render_table_cases ui df) as H.
  destruct (price_column df) as [[|c col]|] eqn:E.
  - rewrite H. pose proof (render_table_cases ui' df) as H'.
    rewrite E in H'. exact H'.
  - destruct H as [i [Hi H]].
    set (cells := to_numeric (map (fun r => nth i r VNone) (rows df))) in *.
    assert (Hlen : List.length cells = List.length (rows df))
      by (unfold cells; rewrite to_numeric_length, length_map; reflexivity).
    assert (Hcols : columns (fst (render ui df)) = columns df)
      by (rewrite H; eapply set_column_columns; exact Hi).
    assert (Hget : get_column (fst (render ui df)) (c :: col) = Some cells)
      by (rewrite H; eapply get_set_column; eassumption).
    pose proof (render_table_cases ui' (fst (render ui df))) as H'.
    unfold price_column in H', E.
    rewrite (detect_column_ext _ df _ Hcols), E in H'.
    destruct H' as [j [Hj H']]. rewrite H'.
    rewrite (get_column_index _ _ Hj) in Hget. injection Hget as Hget.
    rewrite Hget.
    assert (Hnum : to_numeric cells = cells)
      by (unfold cells; apply to_numeric_numeric, to_numeric_is_numeric).
    rewrite Hnum.
    apply set_column_get_column. rewrite <- Hget.
    apply get_column_index. exact Hj.
  - rewrite H. pose proof (render_table_cases ui' df) as H'.
    rewrite E in H'. exact H'.
Qed.

Lemma render_twice_witness :
  fst (render (searching (lit "light")) (fst (render idle odd_price_table)))
  = fst (render idle odd_price_table).
Proof.
  apply (@render_twice idle (searching (lit "light")) odd_price_table).
  repeat constructor.
Defined.

(** ** What the views display *)

Lemma select_incl (mask : list bool) (rs : list (list cell)) :
  incl (select mask rs) rs.
Proof.
  revert mask. induction rs as [|r rs IH]; intros [|b mask]; simpl;
    try (intros x []).
  destruct b.
  - intros x [<- | Hx]; [left; reflexivity | right; exact (IH mask x Hx)].
  - intros x Hx. right. exact (IH mask x Hx).
Qed.

Lemma dropna_frame (df : DataFrame) (name : str) :
  columns (dropna df name) = columns df
  /\ incl (rows (dropna df name)) (rows df).
Proof.
  unfold dropna. destruct (get_column df name); cbn [columns rows].
  - split; [reflexivity | apply select_incl].
  - split; [reflexivity | apply incl_refl].
Qed.

Lemma price_ceiling_frame (df : DataFrame) (name : str) (t : Z) :
  columns (price_ceiling df name t) = columns df
  /\ incl (rows (price_ceiling df name t)) (rows df).
Proof.
  unfold price_ceiling. destruct (get_column df name); cbn [columns rows].
  - split; [reflexivity | apply select_incl].
  - split; [reflexivity | apply incl_refl].
Qed.

(** The three results of "Filter by Price": the table, what is shown and
    the table to export. *)
Lemma filter_by_price_frames (ui : widgets) (df : DataFrame)
  (price_col : option str) :
  columns (fst (fst (filter_by_price ui df price_col))) = columns df
  /\ columns (snd (filter_by_price ui df price_col)) = columns df
  /\ incl (rows (snd (filter_by_price ui df price_col)))
          (rows (fst (fst (filter_by_price ui df price_col))))
  /\ forall t f, snd (fst (filter_by_price ui df price_col))
                 = PriceFiltered t f ->
                 f = snd (filter_by_price ui df price_col).
Proof.
  unfold filter_by_price.
  destruct price_col as [[|c col]|];
    try (cbn [fst snd]; repeat split;
         [apply incl_refl | intros t f H; discriminate H]).
  destruct (get_column df (c :: col)) as [cells|] eqn:Hcol;
    [|cbn [fst snd]; repeat split;
      [apply incl_refl | intros t f H; discriminate H]].
  assert (Hc : columns (set_column df (c :: col) (to_numeric cells))
               = columns df).
  { unfold get_column in Hcol.
    destruct (index_of (c :: col) (columns df)) as [i|] eqn:Hi;
      [|discriminate].
    eapply set_column_columns. exact Hi. }
  destruct (slider_arguments _ _) as [[[mn mx] d]|];
    [|cbn [fst snd]; repeat split;
      [exact Hc | exact Hc | apply incl_refl | intros t f H; discriminate H]].
  destruct (slider ui mn mx d) as [t|];
    [|cbn [fst snd]; repeat split;
      [exact Hc | exact Hc | apply incl_refl | intros t f H; discriminate H]].
  cbn [fst snd].
  destruct (price_ceiling_frame
              (dropna (set_column df (c :: col) (to_numeric cells)) (c :: col))
              (c :: col) t) as [P1 P2].
  destruct (dropna_frame (set_column df (c :: col) (to_numeric cells))
              (c :: col)) as [D1 D2].
  split; [exact Hc|]. split; [congruence|].
  split; [eapply incl_tran; eassumption|].
  intros t' f H. injection H as _ <-. reflexivity.
Qed.

Lemma render_unfold (ui : widgets) (df : DataFrame) :
  render ui df
  = (fst (fst (filter_by_price ui df (price_column df))),
     {| price_section := snd (fst (filter_by_price ui df (price_column df)));
        stock_section :=
          books_in_stock (fst (fst (filter_by_price ui df (price_column df))))
                         (availability_column df);
        search_section :=
          search_books ui (fst (fst (filter_by_price ui df (price_column df))))
                       (title_column df);
        download := snd (filter_by_price ui df (price_column df)) |}).
Proof.
  unfold render, price_column, availability_column, title_column.
  destruct (filter_by_price ui df _) as [[t shown] filtered]. reflexivity.
Qed.

Lemma books_in_stock_frame (df : DataFrame) (col : option str)
  (f : DataFrame) :
  books_in_stock df col = InStock f ->
  columns f = columns df /\ incl (rows f) (rows df).
Proof.
  unfold books_in_stock. destruct col as [[|c col]|]; try discriminate.
  destruct (get_column df (c :: col)); [|discriminate].
  destruct (Re.compile false (lit "in stock")); [|discriminate].
  intros H. injection H as <-. cbn [columns rows].
  split; [reflexivity | apply select_incl].
Qed.

Lemma search_books_frame (ui : widgets) (df : DataFrame) (col : option str)
  (f : DataFrame) :
  search_books ui df col = SearchResults f ->
  columns f = columns df /\ incl (rows f) (rows df).
Proof.
  unfold search_books. destruct col as [[|c col]|]; try discriminate.
  destruct (search_term ui); [discriminate|].
  destruct (get_column df (c :: col)); [|discriminate].
  destruct (Re.compile true _); [|discriminate].
  intros H. injection H as <-. cbn [columns rows].
  split; [reflexivity | apply select_incl].
Qed.

(** X12.  No view invents a row or changes the header: the table offered
    for download, the table of the price filter, the table of the books in
    stock and the table of the search results each have the header of the
    session table, and each of their rows is a row of the session table
    as the run leaves it. *)
Theorem displayed_rows_are_table_rows (ui : widgets) (df : DataFrame) :
  (columns (download (snd (render ui df))) = columns df
   /\ incl (rows (download (snd (render ui df)))) (rows (fst (render ui df))))
  /\ (forall t f, price_section (snd (render ui df)) = PriceFiltered t f ->
        columns f = columns df /\ incl (rows f) (rows (fst (render ui df))))
  /\ (forall f, stock_section (snd (render ui df)) = InStock f ->
        columns f = columns df /\ incl (rows f) (rows (fst (render ui df))))
  /\ (forall f, search_section (snd (render ui df)) = SearchResults f ->
        columns f = columns df /\ incl (rows f) (rows (fst (render ui df)))).
Proof.
  rewrite render_unfold. cbn [fst snd price_section stock_section
                                search_section download].
  destruct (filter_by_price_frames ui df (price_column df))
    as [H1 [H2 [H3 H4]]].
  split; [split; assumption|]. split; [|split].
  - intros t f H. rewrite (H4 t f H). split; assumption.
  - intros f H. apply books_in_stock_frame in H. destruct H as [K1 K2].
    split; [congruence | exact K2].
  - intros f H. apply search_books_frame in H. destruct H as [K1 K2].
    split; [congruence | exact K2].
Qed.

Lemma displayed_rows_are_table_rows_witness :
  columns (price_ceiling
             (cleaned_view stock_table (lit "price")
                [VInt 51; VInt 23; VInt 50]) (lit "price") 50)
  = columns stock_table
  /\ incl (rows (price_ceiling
                   (cleaned_view stock_table (lit "price")
                      [VInt 51; VInt 23; VInt 50]) (lit "price") 50))
          (rows (fst (render idle stock_table))).
Proof.
  apply (proj1 (proj2 (displayed_rows_are_table_rows idle stock_table)) 50).
  reflexivity.
Defined.

(** ** The search term *)

Lemma lower_cp_idem (c : Z) :
  PyStr.lower_cp (PyStr.lower_cp c) = PyStr.lower_cp c.
Proof.
  unfold PyStr.lower_cp.
  destruct (Z.leb_spec 65 c), (Z.leb_spec c 90), (Z.leb_spec 192 c),
    (Z.leb_spec c 222), (Z.eqb_spec c 215); simpl; try lia;
    repeat match goal with
           | |- context [?a <=? ?b] => destruct (Z.leb_spec a b)
           | |- context [?a =? ?b] => destruct (Z.eqb_spec a b)
           end; simpl; lia.
Qed.

Lemma lower_idem (s : str) : PyStr.lower (PyStr.lower s) = PyStr.lower s.
Proof.
  unfold PyStr.lower. rewrite map_map. apply map_ext. apply lower_cp_idem.
Qed.

Lemma special_false (c : Z) :
  Re.special c = false
  <-> ~ In c [46; 94; 36; 42; 43; 63; 123; 125; 91; 93; 92; 124; 40; 41].
Proof.
  unfold Re.special. split.
  - intros H Hin. assert (E : existsb (Z.eqb c)
        [46; 94; 36; 42; 43; 63; 123; 125; 91; 93; 92; 124; 40; 41] = true).
    { apply existsb_exists. exists c. split; [exact Hin | apply Z.eqb_refl]. }
    congruence.
  - intros H. destruct (existsb _ _) eqn:E; [|reflexivity].
    apply existsb_exists in E. destruct E as [x [Hin Hx]].
    apply Z.eqb_eq in Hx. subst. contradiction.
Qed.

Lemma special_lower_cp (c : Z) :
  Re.special c = false -> Re.special (PyStr.lower_cp c) = false.
Proof.
  intros H.
  assert (K : PyStr.lower_cp c = c
              \/ 97 <= PyStr.lower_cp c <= 122
              \/ 224 <= PyStr.lower_cp c <= 254).
  { unfold PyStr.lower_cp.
    destruct (Z.leb_spec 65 c), (Z.leb_spec c 90), (Z.leb_spec 192 c),
      (Z.leb_spec c 222), (Z.eqb_spec c 215); simpl; lia. }
  destruct K as [-> | K]; [exact H|].
  apply special_false. simpl. lia.
Qed.

Lemma plain_lower (term : str) :
  plain term = true -> plain (PyStr.lower term) = true.
Proof.
  unfold plain, PyStr.lower. induction term as [|c term IH]; simpl;
    [reflexivity|].
  rewrite !andb_true_iff, !negb_true_iff. intros [Hc Ht].
  split; [apply special_lower_cp; exact Hc | apply IH; exact Ht].
Qed.

Lemma lower_cp_latin1 (c : Z) : c < 256 -> PyStr.lower_cp c < 256.
Proof.
  unfold PyStr.lower_cp.
  destruct (Z.leb_spec 65 c), (Z.leb_spec c 90), (Z.leb_spec 192 c),
    (Z.leb_spec c 222), (Z.eqb_spec c 215); simpl; lia.
Qed.

Lemma latin1_lower (term : str) :
  latin1 term = true -> latin1 (PyStr.lower term) = true.
Proof.
  unfold latin1, PyStr.lower. induction term as [|c term IH]; simpl;
    [reflexivity|].
  rewrite !andb_true_iff, !Z.ltb_lt. intros [Hc Ht].
  split; [apply lower_cp_latin1; exact Hc | apply IH; exact Ht].
Qed.

(** A Latin-1 term and the same term lowered compile to one pattern. *)
Lemma fold_lower (term : str) :
  latin1 term = true -> map Re.fold (PyStr.lower term) = map Re.fold term.
Proof.
  intros H. rewrite (fold_latin1 _ (latin1_lower _ H)), (fold_latin1 _ H).
  apply lower_idem.
Qed.

(** X13.  The letter case of a search term does not matter: a Latin-1
    term without special characters and the same term lowered give the
    same display, whatever the table and the title column. *)
Theorem search_ignores_case_of_term (ui ui' : widgets) (df : DataFrame)
  (title_col : option str) :
  search_term ui' = PyStr.lower (search_term ui) ->
  plain (search_term ui) = true ->
  latin1 (search_term ui) = true ->
  search_books ui' df title_col = search_books ui df title_col.
Proof.
  intros Hterm Hplain Hlatin. unfold search_books.
  destruct title_col as [[|c col]|]; try reflexivity.
  rewrite Hterm. clear Hterm.
  destruct (search_term ui) as [|x term] eqn:E; [reflexivity|].
  change (PyStr.lower (x :: term))
    with (PyStr.lower_cp x :: PyStr.lower term).
  cbv iota.
  change (PyStr.lower_cp x :: PyStr.lower term)
    with (PyStr.lower (x :: term)).
  destruct (get_column df (c :: col)) as [cells|]; [|reflexivity].
  rewrite (compile_plain_ignorecase _ Hplain Hlatin),
    (compile_plain_ignorecase _ (plain_lower _ Hplain)
                              (latin1_lower _ Hlatin)).
  do 3 f_equal. apply map_ext. intros v.
  rewrite !search_ignorecase, (fold_lower _ Hlatin). reflexivity.
Qed.

Lemma search_ignores_case_of_term_witness :
  search_books (searching (lit "light")) stock_table (Some (lit "title"))
  = search_books (searching (lit "LiGHT")) stock_table (Some (lit "title")).
Proof.
  apply (@search_ignores_case_of_term (searching (lit "LiGHT"))
           (searching (lit "light")) stock_table (Some (lit "title")));
    reflexivity.
Defined.

(** ** The price view without a number *)

Lemma to_numeric_all_nan (cells : list cell) :
  (forall x, In x cells -> isna (to_numeric_cell x) = true) ->
  forall v, In v (to_numeric cells) -> isna v = true.
Proof.
  intros H v. unfold to_numeric.
  destruct (forallb is_int (map to_numeric_cell cells)).
  - intros Hv. apply in_map_iff in Hv. destruct Hv as [x [<- Hx]].
    apply H. exact Hx.
  - intros Hv. apply in_map_iff in Hv. destruct Hv as [y [<- Hy]].
    apply in_map_iff in Hy. destruct Hy as [x [<- Hx]].
    specialize (H x Hx). destruct (to_numeric_cell x); try discriminate;
      exact H.
Qed.

Lemma nth_set_nth_cases (i : nat) (v : cell) (r : list cell) :
  nth i (set_nth i v r) VNone = v \/ nth i (set_nth i v r) VNone = VNone.
Proof.
  revert r. induction i as [|i IH]; intros [|c r]; simpl; auto.
Qed.

Lemma set_column_all_nan (df : DataFrame) (name : str) (i : nat)
  (values : list cell) :
  index_of name (columns df) = Some i ->
  (forall v, In v values -> isna v = true) ->
  forall r, In r (rows (set_column df name values)) ->
            isna (nth i r VNone) = true.
Proof.
  intros Hi Hv r. unfold set_column. rewrite Hi. cbn [rows].
  intros Hr. apply in_map_iff in Hr. destruct Hr as [[v r0] [<- Hin]].
  cbn [fst snd]. apply in_combine_l in Hin.
  destruct (nth_set_nth_cases i v r0) as [-> | ->];
    [apply Hv; exact Hin | reflexivity].
Qed.

Lemma filter_none {A : Type} (f : A -> bool) (l : list A) :
  (forall x, In x l -> f x = false) -> filter f l = [].
Proof.
  induction l as [|x l IH]; simpl; [reflexivity|].
  intros H. rewrite (H x) by auto. apply IH. intros y Hy. apply H. auto.
Qed.

(** X14.  When no cell of the detected price column is a number (as after
    a cleaning that failed and left the prices as text), the price view
    overwrites the column in the session table all the same, then fails:
    no row is left to take a minimum of, the error is displayed in place
    of the filter, and the table offered for download is the whole
    table. *)
Theorem price_view_without_numbers (ui : widgets) (df : DataFrame) (c : Z)
  (col : str) (cells : list cell) :
  get_column df (c :: col) = Some cells ->
  (forall x, In x cells -> isna (to_numeric_cell x) = true) ->
  filter_by_price ui df (Some (c :: col))
  = (set_column df (c :: col) (to_numeric cells), PriceError,
     set_column df (c :: col) (to_numeric cells)).
Proof.
  intros Hcol Hnan. unfold filter_by_price. rewrite Hcol.
  assert (Hi : exists i, index_of (c :: col) (columns df) = Some i).
  { unfold get_column in Hcol.
    destruct (index_of (c :: col) (columns df)) as [i|];
      [eauto | discriminate]. }
  destruct Hi as [i Hi].
  assert (Hi1 : index_of (c :: col)
                  (columns (set_column df (c :: col) (to_numeric cells)))
                = Some i)
    by (erewrite set_column_columns by exact Hi; exact Hi).
  assert (Hargs : slider_arguments
                    (dropna (set_column df (c :: col) (to_numeric cells))
                            (c :: col)) (c :: col) = None).
  { rewrite (dropna_rows _ _ Hi1). unfold slider_arguments.
    rewrite (@get_column_index _ (c :: col) i) by exact Hi1. cbn [rows].
    rewrite filter_none; [reflexivity|].
    intros r Hr. apply negb_false_iff.
    eapply set_column_all_nan; [exact Hi | | exact Hr].
    apply to_numeric_all_nan. exact Hnan. }
  rewrite Hargs. reflexivity.
Qed.

Lemma price_view_without_numbers_witness :
  snd (fst (filter_by_price idle (DataFrame_of pound_books)
              (Some (lit "price"))))
  = PriceError.
Proof.
  refine (f_equal (fun x => snd (fst x))
            (@price_view_without_numbers idle (DataFrame_of pound_books)
               112 (lit "rice")
               [VStr (163 :: lit "51.77"); VStr (163 :: lit "23.00")] _ _)).
  - reflexivity.
  - intros x [<- | [<- | []]]; reflexivity.
Defined.

(** ** The load actions *)

(** X15.  A database load reports one message and no more.  Where the
    connection is made and the query answers, the session holds the table
    of the answer, and success is reported exactly when the connection
    then closes: when closing raises, a failure is reported although the
    session is replaced.  Where the connection is not made or the query
    raises, the session is the one before and no success is reported. *)
Theorem database_load_outcome (w : world) (s : session) :
  (exists m, snd (load_from_database w s) = [m])
  /\ (forall df, db_reachable w = true -> db_table w = Some df ->
        fst (load_from_database w s) = Some df
        /\ (snd (load_from_database w s) = [LoadedFromDatabase]
            <-> db_closes w = true))
  /\ (db_reachable w = false \/ db_table w = None ->
        fst (load_from_database w s) = s
        /\ snd (load_from_database w s) <> [LoadedFromDatabase]).
Proof.
  unfold load_from_database, connect_database.
  destruct (db_reachable w) eqn:R; [destruct (db_table w) as [t|] eqn:T;
    [destruct (db_closes w) eqn:C|]|]; cbn [fst snd app].
  - split; [eexists; reflexivity|]. split.
    + intros df _ E. injection E as <-. split; [reflexivity|]. tauto.
    + intros [H | H]; discriminate H.
  - split; [eexists; reflexivity|]. split.
    + intros df _ E. injection E as <-. split; [reflexivity|].
      split; intros H; discriminate H.
    + intros [H | H]; discriminate H.
  - split; [eexists; reflexivity|]. split.
    + intros df _ E. discriminate E.
    + intros _. split; [reflexivity | discriminate].
  - split; [eexists; reflexivity|]. split.
    + intros df E. discriminate E.
    + intros _. split; [reflexivity | discriminate].
Qed.

Lemma database_load_outcome_witness :
  fst (load_from_database closing_fails None) = Some cleaned_table
  /\ snd (load_from_database closing_fails None) = [ErrorLoadingDatabase].
Proof.
  split; [|reflexivity].
  exact (proj1 (proj1 (proj2 (database_load_outcome closing_fails None))
                      cleaned_table eq_refl eq_refl)).
Defined.

Lemma clean_data_rows_length (df : DataFrame) :
  List.length (rows (fst (clean_data df))) = List.length (rows df).
Proof.
  unfold clean_data.
  destruct (get_column df (lit "price")) as [col|] eqn:Hcol; [|reflexivity].
  destruct (try_map astype_float_cell (map str_replace_cell col))
    as [floats|] eqn:Hf; [|reflexivity].
  unfold get_column in Hcol.
  destruct (index_of (lit "price") (columns df)) as [i|] eqn:Hi;
    [|discriminate].
  injection Hcol as <-.
  assert (Hlen : List.length (map VFloat floats) = List.length (rows df))
    by (rewrite length_map, (try_map_length _ _ Hf), !length_map;
        reflexivity).
  destruct (@set_column_shape df (lit "price") i (map VFloat floats) Hi Hlen)
    as [H1 [H2 _]].
  destruct (try_map astype_int_cell floats) as [ints|] eqn:Hz; cbn [fst];
    [|exact H2].
  rewrite <- H2. eapply set_column_rows_length.
  - rewrite H1. exact Hi.
  - rewrite H2, <- Hlen, !length_map. apply (try_map_length _ _ Hz).
Qed.

Lemma DataFrame_of_rows_length (data : list BookRecord) :
  List.length (rows (DataFrame_of data)) = List.length data.
Proof. destruct data; [reflexivity | apply length_map]. Qed.

(** X16.  A scrape run puts in the session a table with one row for each
    record acquired, under the three columns of the scraper when there
    is a record and without any column when there is none.  The file is
    written with that same table; when the writing fails, the session
    has been replaced all the same. *)
Theorem scrape_new_data_table (w : world) (s : session) :
  exists df,
    fst (fst (scrape_new_data w s)) = Some df
    /\ columns df = columns (DataFrame_of (fst (scrape_books_data (web w))))
    /\ List.length (rows df)
       = List.length (fst (scrape_books_data (web w)))
    /\ snd (scrape_new_data w s)
       = (if csv_writable w then Some df else None).
Proof.
  exists (fst (clean_data (DataFrame_of (fst (scrape_books_data (web w)))))).
  split; [|split; [apply clean_data_columns|split]].
  - unfold scrape_new_data.
    destruct (scrape_books_data (web w)) as [data errors]. cbn [fst].
    destruct (clean_data (DataFrame_of data)) as [df errors'].
    destruct (csv_writable w); reflexivity.
  - rewrite clean_data_rows_length. apply DataFrame_of_rows_length.
  - unfold scrape_new_data.
    destruct (scrape_books_data (web w)) as [data errors]. cbn [fst].
    destruct (clean_data (DataFrame_of data)) as [df errors'].
    destruct (csv_writable w); reflexivity.
Qed.

(** ** A run without a pressed button *)

Lemma render_shape (ui : widgets) (df : DataFrame) :
  columns (fst (render ui df)) = columns df
  /\ List.length (rows (fst (render ui df))) = List.length (rows df).
Proof.
  pose proof (render_table_cases ui df) as H.
  destruct (price_column df) as [[|c col]|];
    try (rewrite H; split; reflexivity).
  destruct H as [i [Hi H]]. rewrite H. split.
  - eapply set_column_columns. exact Hi.
  - eapply set_column_rows_length; [exact Hi|].
    rewrite to_numeric_length, length_map. reflexivity.
Qed.

(** X17.  A run in which no button is pressed reads neither the file, nor
    the web, nor the database: its result is the same in every world.  It
    leaves an empty session empty, displays nothing for a table without
    rows or columns and leaves that table as it is, and otherwise keeps
    the header and the number of rows of the session table. *)
Theorem viewing_run (w w' : world) (ui : widgets) (s : session) :
  load_csv_pressed ui = false ->
  scrape_pressed ui = false ->
  load_database_pressed ui = false ->
  main w ui s = main w' ui s
  /\ match s with
     | None => main w ui s = (None, None, [])
     | Some df =>
         exists df',
           fst (fst (main w ui s)) = Some df'
           /\ columns df' = columns df
           /\ List.length (rows df') = List.length (rows df)
           /\ (empty df = true ->
               df' = df /\ snd (fst (main w ui s)) = None)
     end.
Proof.
  intros H1 H2 H3. unfold main. rewrite H1, H2, H3. split; [reflexivity|].
  destruct s as [df|]; [|reflexivity].
  destruct (empty df) eqn:E.
  - exists df. repeat split; reflexivity.
  - destruct (render_shape ui df) as [K1 K2].
    destruct (render ui df) as [df' p]. cbn [fst] in *.
    exists df'. repeat split; try assumption; discriminate.
Qed.

Lemma viewing_run_witness :
  main offline idle (Some cleaned_table)
  = main {| csv_file := Some odd_price_table;
            web := patchy_web;
            csv_writable := true;
            db_reachable := true;
            db_table := Some stock_table;
            db_closes := true |} idle (Some cleaned_table).
Proof.
  apply (@viewing_run offline _ idle (Some cleaned_table)); reflexivity.
Defined.

(** ** The slider over integer prices *)

Lemma fold_min_ints (zs : list Z) (z0 : Z) :
  exists m,
    fold_left (fun m x => if cell_ltb x m then x else m)
              (map VInt zs) (VInt z0) = VInt m
    /\ In m (z0 :: zs) /\ forall z, In z (z0 :: zs) -> m <= z.
Proof.
  revert z0. induction zs as [|x zs IH]; intros z0; simpl.
  - exists z0. split; [reflexivity|]. split; [auto|].
    intros z [<- | []]. lia.
  - destruct (Z.ltb_spec x z0) as [Hlt | Hge].
    + destruct (IH x) as [m [E [Hin Hle]]]. exists m.
      split; [exact E|]. split.
      * destruct Hin as [<- | Hin]; simpl; auto.
      * intros z [<- | [<- | Hz]].
        -- specialize (Hle x (or_introl eq_refl)). lia.
        -- apply Hle. left; reflexivity.
        -- apply Hle. right; exact Hz.
    + destruct (IH z0) as [m [E [Hin Hle]]]. exists m.
      split; [exact E|]. split.
      * destruct Hin as [<- | Hin]; simpl; auto.
      * intros z [<- | [<- | Hz]].
        -- apply Hle. left; reflexivity.
        -- specialize (Hle z0 (or_introl eq_refl)). lia.
        -- apply Hle. right; exact Hz.
Qed.

Lemma fold_max_ints (zs : list Z) (z0 : Z) :
  exists m,
    fold_left (fun m x => if cell_ltb m x then x else m)
              (map VInt zs) (VInt z0) = VInt m
    /\ In m (z0 :: zs) /\ forall z, In z (z0 :: zs) -> z <= m.
Proof.
  revert z0. induction zs as [|x zs IH]; intros z0; simpl.
  - exists z0. split; [reflexivity|]. split; [auto|].
    intros z [<- | []]. lia.
  - destruct (Z.ltb_spec z0 x) as [Hlt | Hge].
    + destruct (IH x) as [m [E [Hin Hle]]]. exists m.
      split; [exact E|]. split.
      * destruct Hin as [<- | Hin]; simpl; auto.
      * intros z [<- | [<- | Hz]].
        -- specialize (Hle x (or_introl eq_refl)). lia.
        -- apply Hle. left; reflexivity.
        -- apply Hle. right; exact Hz.
    + destruct (IH z0) as [m [E [Hin Hle]]]. exists m.
      split; [exact E|]. split.
      * destruct Hin as [<- | Hin]; simpl; auto.
      * intros z [<- | [<- | Hz]].
        -- apply Hle. left; reflexivity.
        -- specialize (Hle z0 (or_introl eq_refl)). lia.
        -- apply Hle. right; exact Hz.
Qed.

Lemma filter_all {A : Type} (f : A -> bool) (l : list A) :
  (forall x, In x l -> f x = true) -> filter f l = l.
Proof.
  induction l as [|x l IH]; simpl; [reflexivity|].
  intros H. rewrite (H x) by auto. f_equal. apply IH.
  intros y Hy. apply H. auto.
Qed.

(** X18.  Over a price column of integers (what a successful cleaning
    gives), the slider is built with the least price as its minimum and
    the greatest as its maximum; its default, the smaller of the maximum
    and 50, lies between the bounds exactly when the least price is at
    most 50; and with the slider at its maximum the filter shows every
    row. *)
Theorem slider_over_integer_prices (df_clean : DataFrame) (col : str)
  (i : nat) (zs : list Z) :
  index_of col (columns df_clean) = Some i ->
  get_column df_clean col = Some (map VInt zs) ->
  zs <> [] ->
  exists min_price max_price,
    slider_arguments df_clean col
    = Some (min_price, max_price, Z.min max_price 50)
    /\ In min_price zs /\ In max_price zs
    /\ (forall z, In z zs -> min_price <= z <= max_price)
    /\ (min_price <= Z.min max_price 50 <= max_price <-> min_price <= 50)
    /\ rows (price_ceiling df_clean col max_price) = rows df_clean.
Proof.
  intros Hi Hcol Hne. unfold slider_arguments. rewrite Hcol.
  destruct zs as [|z0 zs]; [congruence|]. cbn [map col_min col_max].
  destruct (fold_min_ints zs z0) as [mn [Emn [Hmn Lmn]]].
  destruct (fold_max_ints zs z0) as [mx [Emx [Hmx Lmx]]].
  rewrite Emn, Emx. cbn [int_of]. exists mn, mx.
  split; [reflexivity|]. split; [exact Hmn|]. split; [exact Hmx|].
  split; [intros z Hz; split; [apply Lmn | apply Lmx]; exact Hz|].
  split; [specialize (Lmn mx Hmx); lia|].
  rewrite (price_ceiling_rows _ _ mx Hi).
  cbn [rows]. apply filter_all. intros r Hr.
  rewrite (get_column_index _ _ Hi) in Hcol. injection Hcol as Hcol.
  assert (Hc : In (nth i r VNone) (map VInt (z0 :: zs))).
  { cbn [map]. rewrite <- Hcol.
    apply (in_map (fun r => nth i r VNone)). exact Hr. }
  apply in_map_iff in Hc. destruct Hc as [z [<- Hz]].
  simpl. apply Z.leb_le. apply Lmx. exact Hz.
Qed.

Lemma slider_over_integer_prices_witness :
  exists min_price max_price,
    slider_arguments cleaned_table (lit "price")
    = Some (min_price, max_price, Z.min max_price 50)
    /\ In min_price [51; 23] /\ In max_price [51; 23]
    /\ (forall z, In z [51; 23] -> min_price <= z <= max_price)
    /\ (min_price <= Z.min max_price 50 <= max_price <-> min_price <= 50)
    /\ rows (price_ceiling cleaned_table (lit "price") max_price)
       = rows cleaned_table.
Proof.
  apply (@slider_over_integer_prices cleaned_table (lit "price") 1 [51; 23]).
  - reflexivity.
  - reflexivity.
  - discriminate.
Defined.

(** ** The slider over prices with a fractional part *)

(** X19.  The maximum of the slider is the dearest price truncated.  When
    the dearest price is a float above its own integer part, no value of
    the slider up to its maximum shows a row of that price: the dearest
    book cannot be displayed by the price filter. *)
Theorem dearest_fractional_price_is_hidden (df_clean : DataFrame)
  (col : str) (i : nat) (prices : list cell) (f : float)
  (min_price max_price default_price t : Z) (r : list cell) :
  index_of col (columns df_clean) = Some i ->
  get_column df_clean col = Some prices ->
  col_max prices = Some (VFloat f) ->
  Float64.leb_Z f max_price = false ->
  slider_arguments df_clean col
  = Some (min_price, max_price, default_price) ->
  t <= max_price ->
  In r (rows (price_ceiling df_clean col t)) ->
  Float64.trunc f = Some max_price /\ nth i r VNone <> VFloat f.
Proof.
  intros Hi Hcol Hmax Hfrac Hargs Ht Hr.
  unfold slider_arguments in Hargs. rewrite Hcol, Hmax in Hargs.
  destruct (int_of (col_min prices)) as [mn|]; [|discriminate].
  cbn [int_of] in Hargs.
  destruct (Float64.trunc f) as [z|] eqn:Etr; [|discriminate].
  injection Hargs as _ <- _. split; [reflexivity|].
  intros Hcell.
  rewrite (price_ceiling_rows _ _ t Hi) in Hr. cbn [rows] in Hr.
  apply filter_In in Hr. destruct Hr as [_ Hle]. rewrite Hcell in Hle.
  assert (K : cell_leb_Z (VFloat f) z = true)
    by (eapply cell_leb_Z_mono; eassumption).
  simpl in K. congruence.
Qed.

Lemma dearest_fractional_price_is_hidden_witness :
  Float64.trunc (Float64.of_decimal false 6025 (-2)) = Some 60
  /\ nth 1 [VStr (lit "Sharp Objects"); VFloat (Float64.of_Z 23)] VNone
     <> VFloat (Float64.of_decimal false 6025 (-2)).
Proof.
  apply (@dearest_fractional_price_is_hidden fraction_table (lit "price") 1
           [VFloat (Float64.of_Z 23);
            VFloat (Float64.of_decimal false 6025 (-2))]
           (Float64.of_decimal false 6025 (-2)) 23 60 50 60
           [VStr (lit "Sharp Objects"); VFloat (Float64.of_Z 23)]).
  - reflexivity.
  - reflexivity.
  - vm_compute. reflexivity.
  - vm_compute. reflexivity.
  - vm_compute. reflexivity.
  - lia.
  - vm_compute. auto.
Defined.

(** ** A scrape that acquires nothing *)

(** X20.  When only "Scrape New Data" is pressed and the scraper acquires
    no record, the run replaces whatever the session held by the table
    without columns and displays no page. *)
Theorem empty_scrape_clears_session (w : world) (ui : widgets)
  (s : session) :
  scraping ui ->
  fst (scrape_books_data (web w)) = [] ->
  fst (main w ui s) = (Some {| columns := []; rows := [] |}, None).
Proof.
  intros [H1 [H2 H3]] Hdata. unfold main, scrape_new_data.
  rewrite H1, H2, H3.
  destruct (scrape_books_data (web w)) as [data errors].
  cbn [fst] in Hdata. subst data.
  change (clean_data (DataFrame_of []))
    with ({| columns := []; rows := [] |}, [ErrorCleaningData]).
  cbv iota. destruct (csv_writable w); reflexivity.
Qed.

Lemma empty_scrape_clears_session_witness :
  fst (main offline press_scrape (Some stock_table))
  = (Some {| columns := []; rows := [] |}, None).
Proof.
  apply (@empty_scrape_clears_session offline press_scrape).
  - repeat split.
  - reflexivity.
Defined.
